(** * Aurelio dictionary: confidence scorer and dictionary manager

    A shallow embedding of [core/confidence_module.py] and
    [core/dictionary_manager.py], and the properties of the data-management
    layer proved (or refuted) on it.

    Python values are modelled as follows.
    - [str] is a list of Unicode code points ([N]); [str.strip] and
      [str.split] use Python's own whitespace set.  [str.lower] is a function
      of the environment: nothing below depends on which one it is, and the
      concrete runs use the ASCII one.
    - [float] is the kernel's binary64 type.
    - [dict] is an association list in insertion order, as Python iterates it.
    - [None] is [None]; an [Optional[str]] is an [option pystr].
    - the files the manager reads and writes, the clock, the network lookup
      and the failures of the operating system are fields of an explicit
      state and environment. *)

From Stdlib Require Import List Bool Arith NArith ZArith Lia.
From Stdlib Require Import Ascii String DecimalString.
From Stdlib Require Import Floats Uint63.
From Stdlib Require Import Sorted Permutation.
Import ListNotations.

Set Implicit Arguments.

(** ** Python strings *)

Module PyStr.

Definition pystr := list N.

(** A literal: the code points of an ASCII string. *)
Definition py (s : string) : pystr := map N_of_ascii (list_ascii_of_string s).

Fixpoint eqb (a b : pystr) : bool :=
  match a, b with
  | [], [] => true
  | x :: a', y :: b' => N.eqb x y && eqb a' b'
  | _, _ => false
  end.

(** [len(s) > 0], the truth value Python gives a string. *)
Definition truthy (s : pystr) : bool :=
  match s with [] => false | _ :: _ => true end.

(** [str.isspace] on one code point: U+0009..U+000D, U+001C..U+0020, U+0085,
    U+00A0, U+1680, U+2000..U+200A, U+2028, U+2029, U+202F, U+205F, U+3000. *)
Definition isspace (c : N) : bool :=
  (((9 <=? c) && (c <=? 13)) || ((28 <=? c) && (c <=? 32))
   || (c =? 133) || (c =? 160) || (c =? 5760)
   || ((8192 <=? c) && (c <=? 8202))
   || (c =? 8232) || (c =? 8233) || (c =? 8239) || (c =? 8287)
   || (c =? 12288))%N.

Fixpoint lstrip (s : pystr) : pystr :=
  match s with
  | [] => []
  | c :: s' => if isspace c then lstrip s' else s
  end.

Definition rstrip (s : pystr) : pystr := rev (lstrip (rev s)).

(** [s.strip()] *)
Definition strip (s : pystr) : pystr := rstrip (lstrip s).

(** [s.split()]: the maximal runs of non-whitespace, in order.  [cur] is the
    run being read, latest code point first. *)
Fixpoint split_from (cur : pystr) (s : pystr) : list pystr :=
  match s with
  | [] => match cur with [] => [] | _ => [rev cur] end
  | c :: s' =>
      if isspace c
      then match cur with
           | [] => split_from [] s'
           | _ => rev cur :: split_from [] s'
           end
      else split_from (c :: cur) s'
  end.

Definition split (s : pystr) : list pystr := split_from [] s.

(** ASCII lower-casing, the [str.lower] of the concrete runs. *)
Definition ascii_lower (s : pystr) : pystr :=
  map (fun c => if (65 <=? c) && (c <=? 90) then c + 32 else c)%N s.

(** Text-mode reading with the default [newline=None]: every CR LF and every
    lone CR arrives as LF. *)
Fixpoint universal_newlines (s : pystr) : pystr :=
  match s with
  | [] => []
  | 13%N :: ((10%N :: s'') as s') => universal_newlines s'
  | 13%N :: s' => 10%N :: universal_newlines s'
  | c :: s' => c :: universal_newlines s'
  end.

(** Lexicographic order on code points, the order of [sorted] on strings. *)
Fixpoint leb (a b : pystr) : bool :=
  match a, b with
  | [], _ => true
  | _ :: _, [] => false
  | x :: a', y :: b' => (x <? y)%N || ((x =? y)%N && leb a' b')
  end.

Fixpoint insert_sorted (x : pystr) (l : list pystr) : list pystr :=
  match l with
  | [] => [x]
  | y :: l' => if leb x y then x :: l else y :: insert_sorted x l'
  end.

Definition sorted (l : list pystr) : list pystr :=
  fold_right insert_sorted [] l.

Definition blank (s : pystr) : bool := forallb isspace s.

End PyStr.

Import PyStr.


(** ** [core/confidence_module.py] *)

Module ConfidenceModule.

(** The three attributes [__init__] stores. *)
Record t := {
  high_multiplier : float;
  partial_multiplier : float;
  max_confidence : float
}.

(** [ConfidenceModule()]: the defaults 2.0, 1.5 and 100.0. *)
Definition default : t :=
  {| high_multiplier := 2%float;
     partial_multiplier := 1.5%float;
     max_confidence := 100%float |}.

(** What a caller may pass: [None], a [str], or another object, of which only
    its [str(...)] matters. *)
Inductive pyarg :=
| PyNone
| PyStr (s : pystr)
| PyOther (str_of : pystr).

(** Lines 41-48: [None] becomes the empty string, a non-string its [str]. *)
Definition coerce (a : pyarg) : pystr :=
  match a with
  | PyNone => []
  | PyStr s => s
  | PyOther r => r
  end.

(** The conversion of [int * float]; a [len] is below 2^63. *)
Definition float_of_len (n : nat) : float :=
  PrimFloat.of_uint63 (Uint63.of_Z (Z.of_nat n)).

(** The builtin [min(a, b)]: [b] when [b < a], else [a]. *)
Definition py_min (a b : float) : float :=
  if PrimFloat.ltb b a then b else a.

Definition word_count (s : pystr) : nat := List.length (split s).

(** Lines 23-71.  Nothing in the [try] raises on these arguments, so the
    [except] clause, which returns 0.0, is not reached. *)
Definition calculate_confidence (self : t) (definition example : pyarg)
  : float :=
  let definition := coerce definition in
  let example := coerce example in
  let definition_word_count := word_count definition in
  let example_word_count := word_count example in
  let total_word_count := definition_word_count + example_word_count in
  if truthy definition && truthy example then
    py_min (max_confidence self)
           (PrimFloat.mul (float_of_len total_word_count)
                          (high_multiplier self))
  else if truthy definition || truthy example then
    let single_word_count :=
      if truthy definition then definition_word_count
      else example_word_count in
    py_min (max_confidence self)
           (PrimFloat.mul (float_of_len single_word_count)
                          (partial_multiplier self))
  else 0%float.

(** [min(max_confidence, n * multiplier)], the value the properties name. *)
Definition capped (self : t) (n : nat) (multiplier : float) : float :=
  py_min (max_confidence self) (PrimFloat.mul (float_of_len n) multiplier).

(** The scorer as the specification words it: the branch is chosen by what
    is left of each string after trimming. *)
Definition calculate_confidence_spec (self : t) (definition example : pystr)
  : float :=
  let d := truthy (strip definition) in
  let e := truthy (strip example) in
  if d && e then
    py_min (max_confidence self)
           (PrimFloat.mul
              (float_of_len (word_count definition + word_count example))
              (high_multiplier self))
  else if d then
    py_min (max_confidence self)
           (PrimFloat.mul (float_of_len (word_count definition))
                          (partial_multiplier self))
  else if e then
    py_min (max_confidence self)
           (PrimFloat.mul (float_of_len (word_count example))
                          (partial_multiplier self))
  else 0%float.

End ConfidenceModule.

(** ** Python dictionaries

    An association list in insertion order with one pair per key: assigning to
    a key that is present keeps its place, a new key goes last. *)

Module PyDict.

Section Dict.

Variable V : Type.

Definition pydict := list (pystr * V).

(** [d.get(k)] *)
Fixpoint get (k : pystr) (d : pydict) : option V :=
  match d with
  | [] => None
  | (k', v) :: d' => if eqb k k' then Some v else get k d'
  end.

(** [k in d] *)
Definition contains (k : pystr) (d : pydict) : bool :=
  match get k d with Some _ => true | None => false end.

(** [d[k] = v] *)
Fixpoint setitem (k : pystr) (v : V) (d : pydict) : pydict :=
  match d with
  | [] => [(k, v)]
  | (k', v') :: d' =>
      if eqb k k' then (k', v) :: d' else (k', v') :: setitem k v d'
  end.

(** [del d[k]], for a key that is present. *)
Fixpoint delitem (k : pystr) (d : pydict) : pydict :=
  match d with
  | [] => []
  | (k', v') :: d' => if eqb k k' then d' else (k', v') :: delitem k d'
  end.

(** [d.setdefault(k, v)]: the dictionary afterwards. *)
Definition setdefault (k : pystr) (v : V) (d : pydict) : pydict :=
  if contains k d then d else setitem k v d.

(** [list(d.keys())] *)
Definition keys (d : pydict) : list pystr := map fst d.

End Dict.

End PyDict.

(** ** [core/dictionary_manager.py] *)

Module DictionaryManager.

(** *** Data *)

(** One word's record: the inner dictionary with the keys ['definition'],
    ['part_of_speech'] and ['example']. *)
Record entry := {
  definition : pystr;
  part_of_speech : pystr;
  example : pystr
}.

Definition bucket := PyDict.pydict entry.

(** [self.dictionary]: language -> word -> entry. *)
Definition lexicon := PyDict.pydict bucket.

Record language_info := {
  name : pystr;
  code : pystr;
  gtts_code : pystr
}.

(** [self.language_data] *)
Definition langdata := PyDict.pydict language_info.

(** *** The files *)

(** What [json.load] finds in a file that exists. *)
Inductive json_file (T : Type) :=
| WellFormed (v : T)
| Malformed.

Arguments Malformed {T}.

(** A CSV file as a reader finds it.  [records] are the records the reader
    delivers, each a list of cells as [csv.reader] parses them under
    [newline=''], a blank line being the empty record.  [unreadable_tail] is
    the error the reader raises once it has delivered them, when it raises.
    Which records come before the error depends on the error.  A field over
    the reader's limit raises [csv.Error] when its line is parsed, after
    every record before it.  A byte that is not UTF-8 raises when the block
    of the file that holds it is decoded, before any record of that block:
    the records delivered are those that end in an earlier block, and of a
    file of one block none is, not even the header. *)
Record csv_text := {
  records : list (list pystr);
  unreadable_tail : option string
}.

(** [csv.field_size_limit()], the longest field the reader accepts. *)
Definition field_size_limit : N := 131072.

(** A field the reader of the import accepts.  The import opens the file
    without [newline=''], so the reader counts the characters that
    [universal_newlines] leaves. *)
Definition within_limit (cell : pystr) : bool :=
  (N.of_nat (List.length (universal_newlines cell)) <=? field_size_limit)%N.

(** The records the reader delivers of the records a file holds: those
    before the first one with a field over the limit. *)
Fixpoint delivered (recs : list (list pystr)) : list (list pystr) :=
  match recs with
  | [] => []
  | r :: recs' =>
      if forallb within_limit r then r :: delivered recs' else []
  end.

(** A file that holds the records [recs], written as UTF-8 by [csv.writer],
    as the import finds it. *)
Definition as_read (recs : list (list pystr)) : csv_text :=
  {| records := delivered recs;
     unreadable_tail :=
       if forallb (forallb within_limit) recs then None
       else Some "field larger than field limit (131072)"%string |}.

(** The manager's two backing files, their backups by timestamp, and CSV
    files by path.  The three kinds of path are taken to be distinct. *)
Record filesystem := {
  dictionary_file : option (json_file lexicon);
  language_data_file : option (json_file langdata);
  dictionary_backups : PyDict.pydict (json_file lexicon);
  language_data_backups : PyDict.pydict (json_file langdata);
  csv_files : PyDict.pydict csv_text
}.

(** *** The environment *)

(** How [open(path, 'w')] followed by [json.dump] ends: the file is written;
    [open] raises and the file is as before; or the dump raises part-way and
    leaves a file that does not parse. *)
Inductive write_outcome := Written | Refused | Torn.

(** The JSON the dictionary API answers with, as far as
    [fetch_definition_from_api] reads it. *)
Record api_definition := {
  api_definition_text : option pystr;
  api_example : option pystr
}.

Record api_meaning := {
  partOfSpeech : option pystr;
  definitions : list api_definition
}.

Record api_entry := { meanings : list api_meaning }.

Inductive response :=
| RequestException
| Response (status_code : nat) (json : option (list api_entry)).

Record env := {
  (** [str.lower] *)
  lower : pystr -> pystr;
  (** [datetime.now().strftime("%Y%m%d%H%M%S")] *)
  now : pystr;
  (** [requests.get(url, timeout=5)] *)
  http_get : pystr -> response;
  (** whether [shutil.copy] of each backing file goes through when the file
      is there *)
  copy_dictionary_ok : bool;
  copy_language_data_ok : bool;
  write_dictionary : write_outcome;
  write_language_data : write_outcome;
  (** whether each backing file can be opened for reading when it is there *)
  read_dictionary_ok : bool;
  read_language_data_ok : bool;
  (** whether [open(csv_path, 'w')] goes through *)
  open_csv_for_writing_ok : pystr -> bool;
  (** [None] when the operating system takes every write to the CSV file,
      once it is open, and its closing; when it raises instead (the disk is
      full), what the file is left holding *)
  csv_write_error : pystr -> option csv_text
}.

(** *** The manager *)

(** The calls whose number and order the properties speak of. *)
Inductive call :=
| Fetched (word language : pystr)
| Saved
| Exported (language csv_path : pystr).

(** A [DictionaryManager] object, the file system it works on, and the calls
    made so far. *)
Record state := {
  dictionary : lexicon;
  language_data : langdata;
  export_csv_path : pystr;
  disk : filesystem;
  calls : list call
}.

Definition set_dictionary (d : lexicon) (s : state) : state :=
  {| dictionary := d;
     language_data := language_data s;
     export_csv_path := export_csv_path s;
     disk := disk s;
     calls := calls s |}.

Definition set_language_data (l : langdata) (s : state) : state :=
  {| dictionary := dictionary s;
     language_data := l;
     export_csv_path := export_csv_path s;
     disk := disk s;
     calls := calls s |}.

Definition set_disk (fs : filesystem) (s : state) : state :=
  {| dictionary := dictionary s;
     language_data := language_data s;
     export_csv_path := export_csv_path s;
     disk := fs;
     calls := calls s |}.

Definition record_call (c : call) (s : state) : state :=
  {| dictionary := dictionary s;
     language_data := language_data s;
     export_csv_path := export_csv_path s;
     disk := disk s;
     calls := calls s ++ [c] |}.

Definition set_dictionary_file (f : option (json_file lexicon))
           (fs : filesystem) : filesystem :=
  {| dictionary_file := f;
     language_data_file := language_data_file fs;
     dictionary_backups := dictionary_backups fs;
     language_data_backups := language_data_backups fs;
     csv_files := csv_files fs |}.

Definition set_language_data_file (f : option (json_file langdata))
           (fs : filesystem) : filesystem :=
  {| dictionary_file := dictionary_file fs;
     language_data_file := f;
     dictionary_backups := dictionary_backups fs;
     language_data_backups := language_data_backups fs;
     csv_files := csv_files fs |}.

Definition add_dictionary_backup (stamp : pystr) (f : json_file lexicon)
           (fs : filesystem) : filesystem :=
  {| dictionary_file := dictionary_file fs;
     language_data_file := language_data_file fs;
     dictionary_backups := PyDict.setitem stamp f (dictionary_backups fs);
     language_data_backups := language_data_backups fs;
     csv_files := csv_files fs |}.

Definition add_language_data_backup (stamp : pystr) (f : json_file langdata)
           (fs : filesystem) : filesystem :=
  {| dictionary_file := dictionary_file fs;
     language_data_file := language_data_file fs;
     dictionary_backups := dictionary_backups fs;
     language_data_backups :=
       PyDict.setitem stamp f (language_data_backups fs);
     csv_files := csv_files fs |}.

Definition write_csv (path : pystr) (t : csv_text) (fs : filesystem)
  : filesystem :=
  {| dictionary_file := dictionary_file fs;
     language_data_file := language_data_file fs;
     dictionary_backups := dictionary_backups fs;
     language_data_backups := language_data_backups fs;
     csv_files := PyDict.setitem path t (csv_files fs) |}.

(** *** Results *)

Inductive exn :=
| AttributeError (attr : string)
| ReadError (text : string).

(** [str(e)] *)
Definition exn_text (e : exn) : string :=
  match e with
  | AttributeError attr =>
      "'NoneType' object has no attribute '" ++ attr ++ "'"
  | ReadError text => text
  end.

(** The messages the operations return, one constructor per literal. *)
Inductive message :=
| MsgEmptyWord
| MsgAlreadyExists
| MsgNotFoundInApi
| MsgFieldsRequired
| MsgAdded
| MsgRemoved
| MsgWordNotFound
| MsgCsvNotFound
| MsgImported (count_added count_skipped : nat)
| MsgImportError (e : exn).

Definition decimal (n : nat) : string :=
  NilEmpty.string_of_uint (Nat.to_uint n).

(** The returned text, in UTF-8. *)
Definition message_text (m : message) : string :=
  match m with
  | MsgEmptyWord => "A palavra não pode estar vazia."
  | MsgAlreadyExists => "Palavra já existe no dicionário."
  | MsgNotFoundInApi =>
      "Definição e exemplo não encontrados na API. Por favor, forneça manualmente."
  | MsgFieldsRequired =>
      "Definição, classe gramatical e exemplo são obrigatórios."
  | MsgAdded => "Palavra adicionada com sucesso."
  | MsgRemoved => "Palavra removida com sucesso."
  | MsgWordNotFound => "Palavra não encontrada no dicionário."
  | MsgCsvNotFound => "Arquivo CSV não encontrado."
  | MsgImported count_added count_skipped =>
      "Dicionário importado com sucesso. " ++ decimal count_added
      ++ " palavras adicionadas, " ++ decimal count_skipped
      ++ " palavras ignoradas."
  | MsgImportError e => "Erro ao importar dicionário: " ++ exn_text e
  end.

(** [needle in text] *)
Definition contains_text (needle text : string) : bool :=
  match String.index 0 needle text with Some _ => true | None => false end.

(** The test the interface makes on a failed [add_word]:
    ["manualmente" in message]. *)
Definition asks_for_manual_entry (m : message) : bool :=
  contains_text "manualmente" (message_text m).

(** *** Construction, loading and saving *)

Definition default_languages : langdata :=
  [ (py "en", {| name := py "English"; code := py "en-US";
                 gtts_code := py "en" |});
    (py "pt", {| name := py "Portugu" ++ [234%N] ++ py "s";
                 code := py "pt-BR"; gtts_code := py "pt" |});
    (py "es", {| name := py "Espa" ++ [241%N] ++ py "ol";
                 code := py "es-ES"; gtts_code := py "es" |});
    (py "fr", {| name := py "Fran" ++ [231%N] ++ py "ais";
                 code := py "fr-FR"; gtts_code := py "fr" |}) ].

(** The file after [open(path, 'w')] and [json.dump(v, file)]. *)
Definition dumped (T : Type) (how : write_outcome) (v : T)
           (before : option (json_file T)) : option (json_file T) :=
  match how with
  | Written => Some (WellFormed v)
  | Refused => before
  | Torn => Some Malformed
  end.

(** Lines 42-95, for the two backing files: a missing one is created with
    its default content; an error is logged and nothing more. *)
Definition ensure_files_exist (E : env) (s : state) : state :=
  let fs := disk s in
  let fs :=
    match dictionary_file fs with
    | None => set_dictionary_file (dumped (write_dictionary E) [] None) fs
    | Some _ => fs
    end in
  let fs :=
    match language_data_file fs with
    | None =>
        set_language_data_file
          (dumped (write_language_data E) default_languages None) fs
    | Some _ => fs
    end in
  set_disk fs s.

(** [open(path, 'r')] then [json.load]: the value, or [None] for any of
    [FileNotFoundError], [json.JSONDecodeError] and other errors. *)
Definition json_load (T : Type) (readable : bool)
           (f : option (json_file T)) : option T :=
  match f with
  | Some (WellFormed v) => if readable then Some v else None
  | Some Malformed => None
  | None => None
  end.

(** Lines 97-119.  One [try] covers both files and each [except] clause
    empties both attributes. *)
Definition load_data (E : env) (s : state) : state :=
  let emptied := set_language_data [] (set_dictionary [] s) in
  match json_load (read_dictionary_ok E) (dictionary_file (disk s)) with
  | Some d =>
      match json_load (read_language_data_ok E)
                      (language_data_file (disk s)) with
      | Some l => set_language_data l (set_dictionary d s)
      | None => emptied
      end
  | None => emptied
  end.

(** Lines 158-178 *)
Definition validate_json (T : Type) (readable : bool)
           (f : option (json_file T)) : bool :=
  match json_load readable f with Some _ => true | None => false end.

(** [shutil.copy(path, backup)]: the content copied, or [None] when it
    raises (the file is missing, or the copy fails). *)
Definition copied (T : Type) (ok : bool) (f : option (json_file T))
  : option (json_file T) :=
  match f with
  | Some c => if ok then Some c else None
  | None => None
  end.

(** Lines 121-156.  Every exception ends in [return False]; what was done
    to the files before it stays done. *)
Definition save_data (E : env) (s : state) : bool * state :=
  let s := record_call Saved s in
  let fs := disk s in
  match copied (copy_dictionary_ok E) (dictionary_file fs) with
  | None => (false, s)
  | Some old_dictionary =>
  let fs := add_dictionary_backup (now E) old_dictionary fs in
  match copied (copy_language_data_ok E) (language_data_file fs) with
  | None => (false, set_disk fs s)
  | Some old_language_data =>
  let fs := add_language_data_backup (now E) old_language_data fs in
  let fs :=
    set_dictionary_file
      (dumped (write_dictionary E) (dictionary s) (dictionary_file fs)) fs in
  match write_dictionary E with
  | Refused | Torn => (false, set_disk fs s)
  | Written =>
  let fs :=
    set_language_data_file
      (dumped (write_language_data E) (language_data s)
              (language_data_file fs)) fs in
  match write_language_data E with
  | Refused | Torn => (false, set_disk fs s)
  | Written =>
      (validate_json (read_dictionary_ok E) (dictionary_file fs)
       && validate_json (read_language_data_ok E) (language_data_file fs),
       set_disk fs s)
  end end end end.

(** [DictionaryManager(...)], lines 34-40, on a given file system. *)
Definition init (E : env) (export_csv_path : pystr) (fs : filesystem)
  : state :=
  load_data E
    (ensure_files_exist E
       {| dictionary := []; language_data := [];
          export_csv_path := export_csv_path; disk := fs; calls := [] |}).

(** *** Looking a word up on the network *)

Definition api_url (word language : pystr) : pystr :=
  py "https://api.dictionaryapi.dev/api/v2/entries/" ++ language
  ++ py "/" ++ word.

Definition or_default (v : option pystr) (default : pystr) : pystr :=
  match v with Some x => x | None => default end.

(** Lines 180-220 *)
Definition fetch_definition_from_api (E : env) (word language : pystr)
  : option entry :=
  match http_get E (api_url word language) with
  | Response 200 (Some (first_entry :: _)) =>
      match meanings first_entry with
      | first_meaning :: _ =>
          match definitions first_meaning with
          | first_definition :: _ =>
              Some
                {| definition :=
                     or_default (api_definition_text first_definition)
                       (py "Defini" ++ [231%N; 227%N] ++ py "o n"
                        ++ [227%N] ++ py "o dispon" ++ [237%N] ++ py "vel.");
                   part_of_speech :=
                     or_default (partOfSpeech first_meaning) (py "N/A");
                   example :=
                     or_default (api_example first_definition)
                       (py "Exemplo n" ++ [227%N] ++ py "o dispon"
                        ++ [237%N] ++ py "vel.") |}
          | [] => None
          end
      | [] => None
      end
  | _ => None
  end.

(** *** CSV export *)

Definition fieldnames : list pystr :=
  [py "word"; py "definition"; py "part_of_speech"; py "example"].

(** The dictionary [writer.writerow] is given for one word, as a record of
    cells in the order of [fieldnames]. *)
Definition export_row (item : pystr * entry) : list pystr :=
  [fst item; definition (snd item); part_of_speech (snd item);
   example (snd item)].

(** Lines 428-429: [if not csv_path: csv_path = self.export_csv_path]. *)
Definition export_target (csv_path : option pystr) (s : state) : pystr :=
  match csv_path with
  | Some p => if truthy p then p else export_csv_path s
  | None => export_csv_path s
  end.

(** The code points UTF-8 does not encode: the surrogates. *)
Definition is_surrogate (c : N) : bool := ((55296 <=? c) && (c <=? 57343))%N.

(** A row [writer.writerow] can write to a file opened with
    [encoding='utf-8']; on another one the write raises
    [UnicodeEncodeError]. *)
Definition encodable (cells : list pystr) : bool :=
  forallb (forallb (fun c => negb (is_surrogate c))) cells.

(** The rows written before the loop meets one that cannot be encoded. *)
Fixpoint rows_written (rows : list (list pystr)) : list (list pystr) :=
  match rows with
  | [] => []
  | r :: rows' => if encodable r then r :: rows_written rows' else []
  end.

(** Lines 416-452.  Nothing is written when the language has no bucket or
    [open] raises.  Once the file is open it has lost what it held: an error
    of the operating system leaves in it what had reached the disk, and a
    row that cannot be encoded leaves the header and the rows before it;
    both end in [return False]. *)
Definition export_dictionary_to_csv (E : env) (language : pystr)
           (csv_path : option pystr) (s : state) : bool * state :=
  let csv_path := export_target csv_path s in
  let s := record_call (Exported language csv_path) s in
  let language := strip (lower E language) in
  match PyDict.get language (dictionary s) with
  | None => (false, s)
  | Some words =>
      if open_csv_for_writing_ok E csv_path then
        let rows := map export_row words in
        match csv_write_error E csv_path with
        | Some remains =>
            (false, set_disk (write_csv csv_path remains (disk s)) s)
        | None =>
            (forallb encodable rows,
             set_disk
               (write_csv csv_path
                  (as_read (fieldnames :: rows_written rows)) (disk s)) s)
        end
      else (false, s)
  end.

(** *** Adding, looking up, removing *)

(** The truth value of an [Optional[str]]. *)
Definition given (v : option pystr) : bool :=
  match v with Some x => truthy x | None => false end.

(** Lines 267-279 and 319-331: the assignment, [save_data], the export. *)
Definition store_word (E : env) (word language : pystr) (e : entry)
           (s : state) : state :=
  let words :=
    match PyDict.get language (dictionary s) with
    | Some b => b
    | None => []
    end in
  let s :=
    set_dictionary
      (PyDict.setitem language
         (PyDict.setitem word
            {| definition := strip (definition e);
               part_of_speech := strip (part_of_speech e);
               example := strip (example e) |} words)
         (dictionary s)) s in
  let s := snd (save_data E s) in
  snd (export_dictionary_to_csv E language (Some (export_csv_path s)) s).

(** Lines 248-250 and 307-309 *)
Definition ensure_language (language : pystr) (s : state) : state :=
  if PyDict.contains language (dictionary s) then s
  else set_dictionary (PyDict.setitem language [] (dictionary s)) s.

Definition has_word (word language : pystr) (s : state) : bool :=
  match PyDict.get language (dictionary s) with
  | Some words => PyDict.contains word words
  | None => false
  end.

(** Lines 222-279 *)
Definition add_word (E : env) (word language : pystr)
           (definition part_of_speech example : option pystr) (s : state)
  : (bool * message) * state :=
  let word := strip (lower E word) in
  if negb (truthy word) then ((false, MsgEmptyWord), s) else
  let s := ensure_language language s in
  if has_word word language s then ((false, MsgAlreadyExists), s) else
  match definition, part_of_speech, example with
  | Some d, Some p, Some x =>
      if truthy d && truthy p && truthy x then
        ((true, MsgAdded),
         store_word E word language
           {| definition := d; part_of_speech := p; example := x |} s)
      else
        let s := record_call (Fetched word language) s in
        match fetch_definition_from_api E word language with
        | Some fetched_data =>
            ((true, MsgAdded), store_word E word language fetched_data s)
        | None => ((false, MsgNotFoundInApi), s)
        end
  | _, _, _ =>
      let s := record_call (Fetched word language) s in
      match fetch_definition_from_api E word language with
      | Some fetched_data =>
          ((true, MsgAdded), store_word E word language fetched_data s)
      | None => ((false, MsgNotFoundInApi), s)
      end
  end.

(** Lines 281-331 *)
Definition manual_add_word (E : env) (word language : pystr)
           (definition part_of_speech example : pystr) (s : state)
  : (bool * message) * state :=
  let word := strip (lower E word) in
  if negb (truthy word) then ((false, MsgEmptyWord), s) else
  let s := ensure_language language s in
  if has_word word language s then ((false, MsgAlreadyExists), s) else
  if negb (truthy definition && truthy part_of_speech && truthy example)
  then ((false, MsgFieldsRequired), s)
  else
    ((true, MsgAdded),
     store_word E word language
       {| definition := definition; part_of_speech := part_of_speech;
          example := example |} s).

(** Lines 333-351 *)
Definition get_definition (E : env) (word language : pystr) (s : state)
  : option entry :=
  let word := strip (lower E word) in
  match PyDict.get language (dictionary s) with
  | Some words => PyDict.get word words
  | None => None
  end.

(** Lines 353-369 *)
Definition set_language (E : env) (language : pystr) (s : state) : bool :=
  PyDict.contains (strip (lower E language)) (language_data s).

(** Lines 371-394 *)
Definition remove_word (E : env) (word language : pystr) (s : state)
  : (bool * message) * state :=
  let word := strip (lower E word) in
  match PyDict.get language (dictionary s) with
  | Some words =>
      if PyDict.contains word words then
        let s :=
          set_dictionary
            (PyDict.setitem language (PyDict.delitem word words)
               (dictionary s)) s in
        let s := snd (save_data E s) in
        let s :=
          snd (export_dictionary_to_csv E language
                 (Some (export_csv_path s)) s) in
        ((true, MsgRemoved), s)
      else ((false, MsgWordNotFound), s)
  | None => ((false, MsgWordNotFound), s)
  end.

(** Lines 396-414 *)
Definition list_words (E : env) (language : pystr) (s : state)
  : option (list pystr) :=
  let language := strip (lower E language) in
  match PyDict.get language (dictionary s) with
  | Some words => Some (sorted (PyDict.keys words))
  | None => None
  end.

(** *** CSV import *)

(** A row as [csv.DictReader] yields it: [dict(zip(fieldnames, cells))], and
    every field name the record has no cell for set to [None].  (Cells beyond
    the field names go under the key [None], which no lookup below uses.) *)
Definition reader_row := PyDict.pydict (option pystr).

Fixpoint pair_up (names : list pystr) (cells : list pystr)
  : list (pystr * option pystr) :=
  match names with
  | [] => []
  | k :: names' =>
      match cells with
      | [] => (k, None) :: pair_up names' []
      | c :: cells' => (k, Some c) :: pair_up names' cells'
      end
  end.

Definition dict_row (names : list pystr) (cells : list pystr) : reader_row :=
  fold_left (fun d kv => PyDict.setitem (fst kv) (snd kv) d)
            (pair_up names cells) [].

Definition is_blank_record (cells : list pystr) : bool :=
  match cells with [] => true | _ :: _ => false end.

(** [csv.DictReader(csvfile)] on the records of a file: the first record
    names the fields, blank records are passed over. *)
Definition DictReader (recs : list (list pystr)) : list reader_row :=
  match recs with
  | [] => []
  | names :: rest =>
      map (dict_row names) (filter (fun r => negb (is_blank_record r)) rest)
  end.

(** [row.get(key, '')] *)
Definition row_get (key : pystr) (row : reader_row) : option pystr :=
  match PyDict.get key row with
  | Some v => v
  | None => Some []
  end.

(** A [str] method called on the result of [row.get]: on [None] it raises. *)
Definition call_method (attr : string) (f : pystr -> pystr)
           (v : option pystr) : exn + pystr :=
  match v with
  | Some x => inr (f x)
  | None => inl (AttributeError attr)
  end.

(** The loop's variables: [self.dictionary] and the two counters. *)
Record progress := {
  imported : lexicon;
  count_added : nat;
  count_skipped : nat
}.

Definition bind (A B : Type) (a : exn + A) (k : A -> exn + B) : exn + B :=
  match a with
  | inl e => inl e
  | inr x => k x
  end.

Notation "x <- a ;; k" := (bind a (fun x => k))
  (at level 61, a at next level, right associativity).

(** Lines 476-499, the body of the loop for one row. *)
Definition import_row (E : env) (language : pystr) (row : reader_row)
           (p : progress) : exn + progress :=
  lowered <- call_method "lower" (lower E) (row_get (py "word") row) ;;
  let word := strip lowered in
  definition <- call_method "strip" strip (row_get (py "definition") row) ;;
  part_of_speech <-
    call_method "strip" strip (row_get (py "part_of_speech") row) ;;
  example <- call_method "strip" strip (row_get (py "example") row) ;;
  if negb (truthy word) || negb (truthy definition)
     || negb (truthy part_of_speech)
  then
    inr {| imported := imported p;
           count_added := count_added p;
           count_skipped := count_skipped p + 1 |}
  else
    let d := PyDict.setdefault (lower E language) [] (imported p) in
    let language_dict :=
      match PyDict.get (lower E language) d with
      | Some b => b
      | None => []
      end in
    if negb (PyDict.contains word language_dict) then
      inr {| imported :=
               PyDict.setitem (lower E language)
                 (PyDict.setitem word
                    {| definition := definition;
                       part_of_speech := part_of_speech;
                       example := example |} language_dict) d;
             count_added := count_added p + 1;
             count_skipped := count_skipped p |}
    else
      inr {| imported := d;
             count_added := count_added p;
             count_skipped := count_skipped p + 1 |}.

(** The loop: it stops at the first row that raises, and what the rows
    before it put in [self.dictionary] stays there. *)
Fixpoint import_rows (E : env) (language : pystr) (rows : list reader_row)
         (p : progress) : progress * option exn :=
  match rows with
  | [] => (p, None)
  | row :: rows' =>
      match import_row E language row p with
      | inl e => (p, Some e)
      | inr p' => import_rows E language rows' p'
      end
  end.

(** The rows the import reads from a file.  It opens the file without
    [newline=''], so every cell has gone through [universal_newlines]. *)
Definition rows_read (f : csv_text) : list reader_row :=
  DictReader (map (map universal_newlines) (records f)).

(** Lines 454-508 *)
Definition import_dictionary_from_csv (E : env) (csv_path language : pystr)
           (s : state) : (bool * message) * state :=
  match PyDict.get csv_path (csv_files (disk s)) with
  | None => ((false, MsgCsvNotFound), s)
  | Some f =>
      let start :=
        {| imported := dictionary s; count_added := 0;
           count_skipped := 0 |} in
      let (p, raised) := import_rows E language (rows_read f) start in
      let s := set_dictionary (imported p) s in
      match raised, unreadable_tail f with
      | Some e, _ => ((false, MsgImportError e), s)
      | None, Some text => ((false, MsgImportError (ReadError text)), s)
      | None, None =>
          let s := snd (save_data E s) in
          let s :=
            snd (export_dictionary_to_csv E language
                   (Some (export_csv_path s)) s) in
          ((true, MsgImported (count_added p) (count_skipped p)), s)
      end
  end.

(** *** Vocabulary of the properties *)

(** [word.lower().strip()], the form under which a word is stored. *)
Definition normal_form (E : env) (word : pystr) : pystr :=
  strip (lower E word).

(** The words of a language, none when the language has no bucket. *)
Definition words_of (language : pystr) (d : lexicon) : bucket :=
  match PyDict.get language d with
  | Some b => b
  | None => []
  end.

(** No operation of the operating system fails. *)
Definition nothing_fails (E : env) : bool :=
  copy_dictionary_ok E && copy_language_data_ok E
  && match write_dictionary E with Written => true | _ => false end
  && match write_language_data E with Written => true | _ => false end
  && read_dictionary_ok E && read_language_data_ok E.

Definition no_carriage_return (s : pystr) : bool :=
  forallb (fun c => negb (c =? 13)%N) s.

(** A cell the import reads back as the export wrote it: already trimmed,
    and free of carriage returns. *)
Definition verbatim (s : pystr) : Prop :=
  strip s = s /\ no_carriage_return s = true.

(** An item of a bucket that the import accepts and stores unchanged: the
    word is non-empty and in normal form, the definition and the part of
    speech are non-empty, and every cell is [verbatim]. *)
Definition importable (E : env) (item : pystr * entry) : Prop :=
  fst item <> [] /\ normal_form E (fst item) = fst item
  /\ no_carriage_return (fst item) = true
  /\ definition (snd item) <> [] /\ verbatim (definition (snd item))
  /\ part_of_speech (snd item) <> []
  /\ verbatim (part_of_speech (snd item))
  /\ verbatim (example (snd item)).

(** The row the import reads for an item the export wrote. *)
Definition read_back (item : pystr * entry) : reader_row :=
  dict_row fieldnames (map universal_newlines (export_row item)).

(** A row of the reader in which no field is [None]. *)
Definition complete (row : reader_row) : Prop :=
  forall k, PyDict.get k row <> Some None.

(** Every entry stored in [before] is stored, unchanged, in [after]. *)
Definition keeps (before after : lexicon) : Prop :=
  forall l b w e,
    PyDict.get l before = Some b -> PyDict.get w b = Some e ->
    exists b', PyDict.get l after = Some b' /\ PyDict.get w b' = Some e.

(** The body of the import loop on a row whose four lookups gave the
    strings [w], [d], [q] and [x]. *)
Definition step_on_cells (E : env) (language w d q x : pystr)
           (p : progress) : progress :=
  if negb (truthy (strip (lower E w))) || negb (truthy (strip d))
     || negb (truthy (strip q))
  then {| imported := imported p;
          count_added := count_added p;
          count_skipped := count_skipped p + 1 |}
  else
    let dct := PyDict.setdefault (lower E language) [] (imported p) in
    if negb (PyDict.contains (strip (lower E w))
               (words_of (lower E language) dct))
    then {| imported :=
              PyDict.setitem (lower E language)
                (PyDict.setitem (strip (lower E w))
                   {| definition := strip d; part_of_speech := strip q;
                      example := strip x |}
                   (words_of (lower E language) dct)) dct;
            count_added := count_added p + 1;
            count_skipped := count_skipped p |}
    else {| imported := dct;
            count_added := count_added p;
            count_skipped := count_skipped p + 1 |}.

(** A row that the loop counts as skipped, leaving the dictionary as it
    is. *)
Definition settled (E : env) (language : pystr) (row : reader_row)
           (d : lexicon) : Prop :=
  forall a k,
    import_row E language row
      {| imported := d; count_added := a; count_skipped := k |}
    = inr {| imported := d; count_added := a; count_skipped := k + 1 |}.

(** The cell of a row under a field name: the empty string when the header
    has no such name, as [row.get(key, '')] gives it, and also where the
    record was too short to have the cell. *)
Definition cell (key : pystr) (row : reader_row) : pystr :=
  match row_get key row with Some c => c | None => [] end.

(** The word the import stores a row under, and the entry it stores. *)
Definition word_of (E : env) (row : reader_row) : pystr :=
  strip (lower E (cell (py "word") row)).

Definition entry_of (row : reader_row) : entry :=
  {| definition := strip (cell (py "definition") row);
     part_of_speech := strip (cell (py "part_of_speech") row);
     example := strip (cell (py "example") row) |}.

(** A row that yields a usable word, definition and part of speech: none
    of the three is empty after trimming. *)
Definition usable (E : env) (row : reader_row) : bool :=
  truthy (word_of E row) && truthy (definition (entry_of row))
  && truthy (part_of_speech (entry_of row)).


(** The entry as [add_word] and [manual_add_word] store it. *)
Definition trim_entry (e : entry) : entry :=
  {| definition := strip (definition e);
     part_of_speech := strip (part_of_speech e);
     example := strip (example e) |}.

Definition trimmed_entry (e : entry) : Prop :=
  strip (definition e) = definition e
  /\ strip (part_of_speech e) = part_of_speech e
  /\ strip (example e) = example e.

(** Every stored word is non-empty and trimmed, and so is every field of
    every stored entry trimmed. *)
Definition tidy (d : lexicon) : Prop :=
  forall l b w e,
    In (l, b) d -> In (w, e) b ->
    w <> [] /\ strip w = w /\ trimmed_entry e.

(** The CSV file an export of a bucket leaves when the operating system
    takes every write. *)
Definition exported (words : bucket) : csv_text :=
  as_read (fieldnames :: rows_written (map export_row words)).

(** The table of a bucket: the header and one row for each word, in the
    order of the bucket. *)
Definition table (words : bucket) : csv_text :=
  {| records := fieldnames :: map export_row words;
     unreadable_tail := None |}.

(** A bucket of which every row can be encoded and read back. *)
Definition portable (words : bucket) : bool :=
  forallb encodable (map export_row words)
  && forallb (forallb within_limit) (map export_row words).

(** *** Concrete runs *)

(** An environment where nothing fails, the API knows no word, and
    [str.lower] is the ASCII one. *)
Definition calm : env :=
  {| lower := ascii_lower;
     now := py "20240101120000";
     http_get := fun _ => Response 404 None;
     copy_dictionary_ok := true;
     copy_language_data_ok := true;
     write_dictionary := Written;
     write_language_data := Written;
     read_dictionary_ok := true;
     read_language_data_ok := true;
     open_csv_for_writing_ok := fun _ => true;
     csv_write_error := fun _ => None |}.

(** The same, except that the API answers every request with one entry,
    whose first meaning is a noun defined as "A fruit". *)
Definition answering : env :=
  {| lower := ascii_lower;
     now := py "20240101120000";
     http_get := fun _ =>
       Response 200
         (Some [ {| meanings :=
                      [ {| partOfSpeech := Some (py "noun");
                           definitions :=
                             [ {| api_definition_text := Some (py "A fruit");
                                  api_example :=
                                    Some (py "An apple a day.") |} ] |} ]
                 |} ]);
     copy_dictionary_ok := true;
     copy_language_data_ok := true;
     write_dictionary := Written;
     write_language_data := Written;
     read_dictionary_ok := true;
     read_language_data_ok := true;
     open_csv_for_writing_ok := fun _ => true;
     csv_write_error := fun _ => None |}.

Definition english : langdata :=
  [ (py "en", {| name := py "English"; code := py "en-US";
                 gtts_code := py "en" |}) ].

Definition mirror : pystr := py "data/export/dictionary_export.csv".

Definition no_files : filesystem :=
  {| dictionary_file := None; language_data_file := None;
     dictionary_backups := []; language_data_backups := [];
     csv_files := [] |}.

(** Both backing files written, the dictionary empty, no CSV file yet: the
    state the tests start from. *)
Definition fresh_disk : filesystem :=
  {| dictionary_file := Some (WellFormed []);
     language_data_file := Some (WellFormed english);
     dictionary_backups := []; language_data_backups := [];
     csv_files := [] |}.

Definition fresh : state :=
  {| dictionary := []; language_data := english;
     export_csv_path := mirror; disk := fresh_disk; calls := [] |}.

Definition apple : entry :=
  {| definition := py "A fruit"; part_of_speech := py "noun";
     example := py "An apple a day." |}.

(** The dictionary holding "apple" in English, saved. *)
Definition with_apple : state :=
  {| dictionary := [(py "en", [(py "apple", apple)])];
     language_data := english;
     export_csv_path := mirror;
     disk :=
       set_dictionary_file
         (Some (WellFormed [(py "en", [(py "apple", apple)])])) fresh_disk;
     calls := [] |}.

(** The same with the dictionary file gone. *)
Definition dictionary_file_missing : state :=
  set_disk (set_dictionary_file None fresh_disk) fresh.

(** A well-formed dictionary file next to a language file that does not
    parse. *)
Definition language_file_malformed : filesystem :=
  set_language_data_file (Some Malformed) (disk with_apple).

Definition flower : list pystr :=
  [py "flower"; py "The seed-bearing part of a plant."; py "noun";
   py "The flower is blooming."].

(** [in.csv]: the header, a full row, and the row [pear,,], which has three
    cells. *)
Definition short_row_csv : csv_text :=
  {| records := [fieldnames; flower; [py "pear"; []; []]];
     unreadable_tail := None |}.


(** [in.csv] as the test of an invalid CSV file writes it: the one line
    [invalid, csv, content], which the reader takes for the header. *)
Definition header_only_csv : csv_text :=
  {| records := [[py "invalid"; py " csv"; py " content"]];
     unreadable_tail := None |}.


(** A dictionary as [load_data] takes it from a file in which a word
    was stored with a space before it (the sibling
    [DefinitionModule.add_word] lower-cases a word but does not trim it). *)
Definition with_untrimmed_word : state :=
  set_dictionary [(py "en", [(py " apple", apple)])] fresh.

(** "note" in English, its definition holding a carriage return. *)
Definition with_carriage_return : state :=
  snd (manual_add_word calm (py "note") (py "en") (py "a" ++ [13%N] ++ py "b")
         (py "noun") (py "A note.") fresh).

Definition tree : list pystr :=
  [py "tree"; []; py "noun"; py "The tree is tall."].

(** [in.csv]: the header, a full row, and a row with an empty
    definition. *)
Definition two_rows_csv : csv_text :=
  {| records := [fieldnames; flower; tree]; unreadable_tail := None |}.

(** [in.csv]: the header and a full row, then a row whose definition has
    131073 characters, one more than the reader takes. *)
Definition broken_csv : csv_text :=
  {| records := [fieldnames; flower];
     unreadable_tail :=
       Some "field larger than field limit (131072)"%string |}.

(** The letter "a" 131073 times: one character more than the reader
    takes in a field. *)
Definition long_definition : pystr := repeat 97%N (2 ^ 17 + 1).

(** "apple", "essay" and "pear" in English; the definition of "essay" is
    the string [long]. *)
Definition with_essay (long : pystr) : state :=
  set_dictionary
    [(py "en",
      [(py "apple", apple);
       (py "essay",
        {| definition := long; part_of_speech := py "noun";
           example := [] |});
       (py "pear", apple)])] fresh.

Definition with_csv (f : csv_text) (s : state) : state :=
  set_disk (write_csv (py "in.csv") f (disk s)) s.

End DictionaryManager.

(** ** [core/definition_module.py] *)

Module DefinitionModule.

Import DictionaryManager.

(** A [DefinitionModule] object.  The files are those of the
    [DictionaryManager]; the operations take and return the file system. *)
Record state := {
  language : pystr;
  dictionary : lexicon;
  language_data : langdata
}.

Definition set_dictionary (d : lexicon) (s : state) : state :=
  {| language := language s; dictionary := d;
     language_data := language_data s |}.

Definition set_language_data (l : langdata) (s : state) : state :=
  {| language := language s; dictionary := dictionary s;
     language_data := l |}.

Definition set_current_language (l : pystr) (s : state) : state :=
  {| language := l; dictionary := dictionary s;
     language_data := language_data s |}.

(** Lines 39-57: a [try] of its own; any error gives the empty dictionary. *)
Definition load_dictionary (E : env) (fs : filesystem) (s : state) : state :=
  match json_load (read_dictionary_ok E) (dictionary_file fs) with
  | Some d => set_dictionary d s
  | None => set_dictionary [] s
  end.

(** Lines 59-77 *)
Definition load_language_data (E : env) (fs : filesystem) (s : state)
  : state :=
  match json_load (read_language_data_ok E) (language_data_file fs) with
  | Some l => set_language_data l s
  | None => set_language_data [] s
  end.

(** Lines 11-37 *)
Definition init (E : env) (language : pystr) (fs : filesystem) : state :=
  load_dictionary E fs
    (load_language_data E fs
       {| language := language; dictionary := []; language_data := [] |}).

(** Lines 79-96 *)
Definition set_language (E : env) (fs : filesystem) (language : pystr)
           (s : state) : state :=
  if negb (PyDict.contains language (language_data s)) then s
  else load_dictionary E fs (set_current_language language s).

(** Lines 98-120 *)
Definition get_definition (E : env) (word : pystr) (s : state)
  : option entry :=
  if negb (truthy (strip word)) then None
  else
    let word := lower E word in
    PyDict.get word (words_of (language s) (dictionary s)).

(** [f"Exemplo de uso para '{word}' não encontrado."] *)
Definition example_not_found (word : pystr) : pystr :=
  py "Exemplo de uso para '" ++ word ++ py "' n" ++ [227%N]
  ++ py "o encontrado.".

(** Lines 122-142 *)
Definition get_example (E : env) (word : pystr) (s : state) : pystr :=
  if negb (truthy (strip word)) then example_not_found word
  else
    match get_definition E word s with
    | Some definition_data =>
        if truthy (strip (example definition_data))
        then example definition_data
        else example_not_found word
    | None => example_not_found word
    end.

(** Lines 144-151 *)
Definition reload_dictionary (E : env) (fs : filesystem) (s : state)
  : state :=
  load_dictionary E fs s.

(** Lines 153-166.  [next(iter(self.language_data), 'en')] is the first key,
    or 'en' when there is none. *)
Definition reload_language_data (E : env) (fs : filesystem) (s : state)
  : state :=
  let s := load_language_data E fs s in
  if negb (PyDict.contains (language s) (language_data s)) then
    let first :=
      match language_data s with
      | (k, _) :: _ => k
      | [] => py "en"
      end in
    load_dictionary E fs (set_current_language first s)
  else s.

(** Lines 208-222: no backup, no validation. *)
Definition save_dictionary (E : env) (fs : filesystem) (s : state)
  : bool * filesystem :=
  (match write_dictionary E with Written => true | _ => false end,
   set_dictionary_file
     (dumped (write_dictionary E) (dictionary s) (dictionary_file fs)) fs).

(** Lines 168-206 *)
Definition add_word (E : env) (word definition part_of_speech : pystr)
           (example : option pystr) (s : state) (fs : filesystem)
  : bool * state * filesystem :=
  if negb (truthy (strip word) && truthy (strip definition)
           && truthy (strip part_of_speech))
  then (false, s, fs)
  else
    let word := lower E word in
    let s := set_dictionary
               (PyDict.setdefault (language s) [] (dictionary s)) s in
    let language_dict := words_of (language s) (dictionary s) in
    if PyDict.contains word language_dict then (false, s, fs)
    else
      let s :=
        set_dictionary
          (PyDict.setitem (language s)
             (PyDict.setitem word
                {| DictionaryManager.definition := strip definition;
                   DictionaryManager.part_of_speech := strip part_of_speech;
                   DictionaryManager.example :=
                     match example with
                     | Some x => if truthy x then strip x else []
                     | None => []
                     end |} language_dict)
             (dictionary s)) s in
      (true, s, snd (save_dictionary E fs s)).

(** Lines 224-248 *)
Definition remove_word (E : env) (word : pystr) (s : state)
           (fs : filesystem) : bool * state * filesystem :=
  if negb (truthy (strip word)) then (false, s, fs)
  else
    let word := lower E word in
    match PyDict.get (language s) (dictionary s) with
    | Some language_dict =>
        if PyDict.contains word language_dict then
          let s :=
            set_dictionary
              (PyDict.setitem (language s)
                 (PyDict.delitem word language_dict) (dictionary s)) s in
          (true, s, snd (save_dictionary E fs s))
        else (false, s, fs)
    | None => (false, s, fs)
    end.

End DefinitionModule.

(** ** [core/task_manager.py] *)

Module TaskManager.

Import DictionaryManager.

(** A [TaskManager]: its own language, the two modules it drives, and the
    language of the speech module.  The file system is the one the
    [DictionaryManager] state carries. *)
Record state := {
  language : pystr;
  dictionary_manager : DictionaryManager.state;
  definition_module : DefinitionModule.state;
  speech_language : pystr
}.

(** Lines 20-54 *)
Definition init (E : env) (language export_csv_path : pystr)
           (fs : filesystem) : state :=
  let dm := DictionaryManager.init E export_csv_path fs in
  {| language := language;
     dictionary_manager := dm;
     definition_module := DefinitionModule.init E language (disk dm);
     speech_language := language |}.

(** Lines 56-76 *)
Definition set_language (E : env) (language : pystr) (s : state)
  : bool * state :=
  if negb (DictionaryManager.set_language E language (dictionary_manager s))
  then (false, s)
  else
    (true,
     {| language := language;
        dictionary_manager := dictionary_manager s;
        definition_module :=
          DefinitionModule.set_language E (disk (dictionary_manager s))
            language (definition_module s);
        speech_language := language |}).

(** What [process_question] returns: the dictionary with the key ['error'],
    or the one with the four keys of an answer. *)
Inductive answer :=
| Error (text : pystr)
| Answer (definition part_of_speech example : pystr) (confidence : float).

(** [f"Palavra '{word}' não encontrada no dicionário."] *)
Definition word_not_found (word : pystr) : pystr :=
  py "Palavra '" ++ word ++ py "' n" ++ [227%N] ++ py "o encontrada no dicion"
  ++ [225%N] ++ py "rio.".

(** Lines 78-108 *)
Definition process_question (E : env) (word : pystr) (s : state) : answer :=
  match DictionaryManager.get_definition E word (language s)
          (dictionary_manager s) with
  | None => Error (word_not_found word)
  | Some definition_data =>
      Answer (definition definition_data) (part_of_speech definition_data)
        (example definition_data)
        (ConfidenceModule.calculate_confidence ConfidenceModule.default
           (ConfidenceModule.PyStr (definition definition_data))
           (ConfidenceModule.PyStr (example definition_data)))
  end.

(** [f"Dicionário exportado com sucesso para '{export_path}'."] *)
Definition exported_to (export_path : pystr) : pystr :=
  py "Dicion" ++ [225%N] ++ py "rio exportado com sucesso para '"
  ++ export_path ++ py "'.".

(** ["Falha na exportação do dicionário para CSV."] *)
Definition export_failed : pystr :=
  py "Falha na exporta" ++ [231%N; 227%N] ++ py "o do dicion" ++ [225%N]
  ++ py "rio para CSV.".

(** Lines 133-152.  The path in the message is worked out here a second
    time, from the manager's state before the call. *)
Definition export_dictionary (E : env) (language : pystr)
           (csv_path : option pystr) (s : state)
  : (bool * pystr) * state :=
  let (success, dm) :=
    export_dictionary_to_csv E language csv_path (dictionary_manager s) in
  let s' :=
    {| language := TaskManager.language s;
       dictionary_manager := dm;
       definition_module := definition_module s;
       speech_language := speech_language s |} in
  if success then
    let export_path :=
      match csv_path with
      | Some p => if truthy p then p else export_csv_path dm
      | None => export_csv_path dm
      end in
    ((true, exported_to export_path), s')
  else ((false, export_failed), s').

(** Lines 154-172 *)
Definition import_dictionary (E : env) (csv_path language : pystr)
           (s : state) : (bool * message) * state :=
  let (result, dm) :=
    import_dictionary_from_csv E csv_path language (dictionary_manager s) in
  (result,
   {| language := TaskManager.language s;
      dictionary_manager := dm;
      definition_module := definition_module s;
      speech_language := speech_language s |}).

End TaskManager.

(** ** [interface/interface_gui.py], the automatic add *)

Module QAInterface.

Import DictionaryManager.

(** What [fetch_and_add_word] shows once [add_word] has returned. *)
Inductive shown :=
| ShowInfo (m : message)
| ManualAddWindow
| ShowError (m : message).

(** Lines 268-287: the marker is looked for in the text of the message. *)
Definition fetch_and_add_word (E : env) (word language : pystr)
           (s : state) : shown * state :=
  let (result, s') := add_word E word language None None None s in
  let (success, m) := result in
  if success then (ShowInfo m, s')
  else if contains_text "manualmente" (message_text m)
       then (ManualAddWindow, s')
       else (ShowError m, s').

End QAInterface.

(** * Properties *)

Import ConfidenceModule DictionaryManager.

(** The dictionary types written out, so that one lookup has one spelling. *)
Ltac plain_types :=
  unfold lexicon, bucket, langdata, reader_row, PyDict.pydict in *.

(** Case analysis on the lookup [d.get(k)] wherever it occurs. *)
Ltac case_get k d :=
  plain_types;
  match goal with
  | |- context [@PyDict.get ?V k d] =>
      let H := fresh "Hget" in destruct (@PyDict.get V k d) eqn:H
  end.

(** ** Strings *)

Section StringFacts.

Lemma eqb_refl (a : pystr) : eqb a a = true.
Proof.
  induction a as [|x a IH]; simpl; [reflexivity|].
  now rewrite N.eqb_refl, IH.
Qed.

Lemma eqb_eq (a b : pystr) : eqb a b = true <-> a = b.
Proof.
  split; [|intros ->; apply eqb_refl].
  revert b; induction a as [|x a IH]; intros [|y b]; simpl;
    try discriminate; [reflexivity|].
  intros H; apply andb_true_iff in H as [Hx Hab].
  apply N.eqb_eq in Hx; subst y.
  now rewrite (IH b Hab).
Qed.

Lemma eqb_neq (a b : pystr) : eqb a b = false <-> a <> b.
Proof.
  split.
  - intros H Hab; apply eqb_eq in Hab; congruence.
  - intros H; destruct (eqb a b) eqn:Hab; [|reflexivity].
    now apply eqb_eq in Hab.
Qed.

Lemma truthy_true (s : pystr) : truthy s = true <-> s <> [].
Proof. destruct s; simpl; split; congruence. Qed.

Lemma truthy_false (s : pystr) : truthy s = false <-> s = [].
Proof. destruct s; simpl; split; congruence. Qed.

Lemma lstrip_blank (s : pystr) : blank s = true -> lstrip s = [].
Proof.
  induction s as [|c s IH]; simpl; [reflexivity|].
  intros H; apply andb_true_iff in H as [Hc Hs].
  rewrite Hc; auto.
Qed.

Lemma lstrip_nil (s : pystr) : lstrip s = [] -> blank s = true.
Proof.
  induction s as [|c s IH]; simpl; [reflexivity|].
  destruct (isspace c); [auto|discriminate].
Qed.

(** What [lstrip] leaves is empty or opens with a code point that is not
    white space. *)
Lemma lstrip_head (s : pystr) :
  lstrip s = [] \/ exists c r, lstrip s = c :: r /\ isspace c = false.
Proof.
  induction s as [|c s IH]; simpl; [now left|].
  destruct (isspace c) eqn:Hc; [exact IH|].
  right; exists c, s; auto.
Qed.

Lemma blank_rev (s : pystr) : blank (rev s) = blank s.
Proof.
  unfold blank.
  destruct (forallb isspace s) eqn:Hs.
  - apply forallb_forall; intros c Hc.
    apply in_rev in Hc.
    now apply (proj1 (forallb_forall _ _) Hs).
  - destruct (forallb isspace (rev s)) eqn:Hr; [|reflexivity].
    rewrite <- Hs; symmetry.
    apply forallb_forall; intros c Hc.
    apply (proj1 (forallb_forall _ _) Hr).
    now apply in_rev in Hc.
Qed.

Lemma strip_blank (s : pystr) : blank s = true -> strip s = [].
Proof.
  intros H; unfold strip, rstrip.
  now rewrite (lstrip_blank s H).
Qed.

Lemma strip_nil (s : pystr) : strip s = [] -> blank s = true.
Proof.
  unfold strip, rstrip; intros H.
  apply (f_equal (@rev N)) in H; rewrite rev_involutive in H; simpl in H.
  apply lstrip_nil in H; rewrite blank_rev in H.
  destruct (lstrip_head s) as [Hn|(c & r & Hc & Hsp)].
  - now apply lstrip_nil.
  - rewrite Hc in H; simpl in H. rewrite Hsp in H; discriminate.
Qed.

Lemma strip_nil_iff (s : pystr) : strip s = [] <-> blank s = true.
Proof. split; [apply strip_nil|apply strip_blank]. Qed.

Lemma split_from_nil (s cur : pystr) :
  split_from cur s = [] <-> cur = [] /\ blank s = true.
Proof.
  revert cur; induction s as [|c s IH]; intros cur; simpl.
  - destruct cur; split; try tauto; try discriminate.
    intros [H _]; discriminate.
  - destruct (isspace c) eqn:Hc; simpl.
    + destruct cur.
      * rewrite IH; tauto.
      * split; [discriminate|intros [H _]; discriminate].
    + rewrite IH; split; [intros [H _]; discriminate|intros [_ H]; discriminate].
Qed.

Lemma split_blank (s : pystr) : blank s = true -> split s = [].
Proof. intros H; apply split_from_nil; auto. Qed.

Lemma universal_newlines_cons (c : N) (s : pystr) :
  c <> 13%N -> universal_newlines (c :: s) = c :: universal_newlines s.
Proof.
  intros Hc.
  destruct c as [|q]; [reflexivity|].
  do 4 (try destruct q as [q|q|]); try reflexivity.
  now elim Hc.
Qed.

Lemma universal_newlines_id (s : pystr) :
  no_carriage_return s = true -> universal_newlines s = s.
Proof.
  induction s as [|c s IH]; [reflexivity|].
  intros H; simpl in H; apply andb_true_iff in H as [Hc Hs].
  apply negb_true_iff, N.eqb_neq in Hc.
  rewrite (universal_newlines_cons s Hc).
  now rewrite (IH Hs).
Qed.

End StringFacts.

(** ** The confidence scorer *)

Section ConfidenceFacts.

Lemma word_count_blank (s : pystr) : strip s = [] -> word_count s = 0.
Proof.
  intros H; unfold word_count.
  now rewrite (split_blank s (strip_nil s H)).
Qed.

(** A string with something left after trimming is a non-empty string. *)
Lemma truthy_of_strip (s : pystr) : strip s <> [] -> truthy s = true.
Proof.
  intros H; destruct s; [|reflexivity].
  now elim H.
Qed.

(** C1 at its failing input.  The definition is one space and the example
    the single word "a".  Exactly one of the two is non-empty after trimming,
    so the claim gives min(100, 1 * 1.5) = 1.5, the value of the scorer as
    the specification words it.  The code counts no word in the definition
    but takes it for present, since it tests the string as given: it returns
    min(100, (0 + 1) * 2.0) = 2.0.  The same test sends two strings of
    spaces to the first branch: the 0 the code returns for them under the
    default maximum, as the test of the repository expects it, is
    min(100, 0 * 2.0), and under a maximum of -1 it returns -1 for them and
    0 for two empty strings. *)
Lemma calculate_confidence_blank_definition :
  let low := {| high_multiplier := 2; partial_multiplier := 1.5;
                max_confidence := PrimFloat.opp 1 |} in
  strip (py " ") = [] /\ strip (py "a") = py "a" /\
  calculate_confidence_spec default (py " ") (py "a") = 1.5%float /\
  capped default (word_count (py "a")) (partial_multiplier default)
    = 1.5%float /\
  calculate_confidence default (PyStr (py " ")) (PyStr (py "a")) = 2%float /\
  calculate_confidence default (PyStr (py "   ")) (PyStr (py "   "))
    = capped default 0 (high_multiplier default) /\
  capped default 0 (high_multiplier default) = 0%float /\
  calculate_confidence low (PyStr (py "   ")) (PyStr (py "   "))
    = PrimFloat.opp 1 /\
  calculate_confidence low (PyStr []) (PyStr []) = 0%float.
Proof. repeat split; reflexivity. Qed.

(** The branches of [calculate_confidence] on two strings.  It chooses its
    branch by whether each string is non-empty as given (white space
    included), while the word counts ignore white space.  So:
    - both non-empty after trimming: min(max, (wc d + wc e) * high);
    - one non-empty after trimming and the other the empty string:
      min(max, wc(that one) * partial);
    - one non-empty after trimming and the other non-empty but all white
      space: min(max, wc(that one) * high);
    - both empty after trimming: min(max, 0 * high) when neither is the
      empty string, min(max, 0 * partial) when one is, and 0 when both
      are. *)
Lemma calculate_confidence_cases (self : t) (d e : pystr) :
  let score := calculate_confidence self (PyStr d) (PyStr e) in
  (strip d <> [] -> strip e <> [] ->
   score = capped self (word_count d + word_count e) (high_multiplier self))
  /\ (strip d <> [] -> e = [] ->
      score = capped self (word_count d) (partial_multiplier self))
  /\ (d = [] -> strip e <> [] ->
      score = capped self (word_count e) (partial_multiplier self))
  /\ (strip d <> [] -> e <> [] -> strip e = [] ->
      score = capped self (word_count d) (high_multiplier self))
  /\ (d <> [] -> strip d = [] -> strip e <> [] ->
      score = capped self (word_count e) (high_multiplier self))
  /\ (strip d = [] -> strip e = [] ->
      score = if truthy d && truthy e
              then capped self 0 (high_multiplier self)
              else if truthy d || truthy e
                   then capped self 0 (partial_multiplier self)
                   else 0%float).
Proof.
  cbv zeta; unfold calculate_confidence, capped; simpl coerce.
  repeat split.
  - intros Hd He.
    now rewrite (truthy_of_strip d Hd), (truthy_of_strip e He).
  - intros Hd ->. now rewrite (truthy_of_strip d Hd).
  - intros -> He. now rewrite (truthy_of_strip e He).
  - intros Hd He Hb.
    rewrite (truthy_of_strip d Hd), (proj2 (truthy_true e) He); simpl.
    now rewrite (word_count_blank e Hb), Nat.add_0_r.
  - intros Hd Hb He.
    rewrite (truthy_of_strip e He), (proj2 (truthy_true d) Hd); simpl.
    now rewrite (word_count_blank d Hb).
  - intros Hd He.
    rewrite (word_count_blank d Hd), (word_count_blank e He).
    destruct (truthy d), (truthy e); reflexivity.
Qed.

(** A float that is a number and not an infinity is a zero or a finite
    number of the format. *)
Lemma Prim2SF_finite (m : float) :
  PrimFloat.is_finite m = true ->
  match Prim2SF m with
  | S754_zero _ | S754_finite _ _ _ => True
  | _ => False
  end.
Proof.
  unfold PrimFloat.is_finite; intros H.
  apply negb_true_iff, orb_false_iff in H as [Hnan Hinf].
  unfold Prim2SF; rewrite Hnan, Hinf.
  destruct (PrimFloat.is_zero m); [exact I|].
  destruct (Z.frexp m) as [r exp].
  destruct (shr_fexp _ _ _ _ _) as [shr e'].
  destruct (shr_m shr); exact I.
Qed.

(** No word at all scores zero, whichever branch is taken, as long as the
    maximum is not below zero and the multiplier is finite. *)
Lemma capped_nothing (self : t) (m : float) :
  PrimFloat.leb 0 (max_confidence self) = true ->
  PrimFloat.is_finite m = true ->
  PrimFloat.eqb (capped self 0 m) 0 = true.
Proof.
  intros Hmax Hm; unfold capped, py_min.
  change (float_of_len 0) with 0%float.
  assert (Hz : exists b, Prim2SF (0 * m) = S754_zero b).
  { rewrite FloatAxioms.mul_spec.
    change (Prim2SF 0) with (S754_zero false).
    pose proof (Prim2SF_finite m Hm) as Hc.
    destruct (Prim2SF m); try contradiction; simpl; eauto. }
  destruct Hz as [b Hz].
  destruct (PrimFloat.ltb (0 * m) (max_confidence self)) eqn:Hlt;
    rewrite FloatAxioms.eqb_spec;
    change (Prim2SF 0) with (S754_zero false).
  - rewrite Hz; reflexivity.
  - rewrite FloatAxioms.ltb_spec, Hz in Hlt.
    rewrite FloatAxioms.leb_spec in Hmax.
    change (Prim2SF 0) with (S754_zero false) in Hmax.
    destruct (Prim2SF (max_confidence self)) as [s|s| |s mm ee];
      simpl in *; try destruct s; try discriminate; reflexivity.
Qed.

(** Two strings that are empty or all white space score zero, provided the
    maximum is not below zero and the two multipliers are finite. *)
Lemma calculate_confidence_blank (self : t) (d e : pystr) :
  strip d = [] -> strip e = [] ->
  PrimFloat.leb 0 (max_confidence self) = true ->
  PrimFloat.is_finite (high_multiplier self) = true ->
  PrimFloat.is_finite (partial_multiplier self) = true ->
  PrimFloat.eqb (calculate_confidence self (PyStr d) (PyStr e)) 0 = true.
Proof.
  intros Hd He Hmax Hhigh Hpartial.
  destruct (calculate_confidence_cases self d e)
    as (_ & _ & _ & _ & _ & Hblank).
  rewrite (Hblank Hd He).
  destruct (truthy d && truthy e); [now apply capped_nothing|].
  destruct (truthy d || truthy e); [now apply capped_nothing|reflexivity].
Qed.

End ConfidenceFacts.

(** ** Dictionaries *)

Section DictFacts.

Variable V : Type.

Implicit Types (d : PyDict.pydict V) (k : pystr) (v : V).

Lemma get_setitem_same d k v : PyDict.get k (PyDict.setitem k v d) = Some v.
Proof.
  induction d as [|[k' v'] d IH]; simpl.
  - now rewrite eqb_refl.
  - destruct (eqb k k') eqn:Hk; simpl; rewrite Hk; auto.
Qed.

Lemma get_setitem_other d k k' v :
  k' <> k -> PyDict.get k' (PyDict.setitem k v d) = PyDict.get k' d.
Proof.
  intros Hne; induction d as [|[k0 v0] d IH]; simpl.
  - now rewrite (proj2 (eqb_neq k' k) Hne).
  - destruct (eqb k k0) eqn:Hk; simpl.
    + apply eqb_eq in Hk; subst k0.
      now rewrite (proj2 (eqb_neq k' k) Hne).
    + now rewrite IH.
Qed.

(** Assigning to a key that is absent puts the pair last. *)
Lemma setitem_absent d k v :
  PyDict.get k d = None -> PyDict.setitem k v d = d ++ [(k, v)].
Proof.
  induction d as [|[k' v'] d IH]; simpl; [reflexivity|].
  destruct (eqb k k'); [discriminate|].
  intros H; now rewrite (IH H).
Qed.

Lemma get_none_iff d k : PyDict.get k d = None <-> ~ In k (PyDict.keys d).
Proof.
  induction d as [|[k' v'] d IH]; simpl; [tauto|].
  destruct (eqb k k') eqn:Hk.
  - apply eqb_eq in Hk; subst k'.
    split; [discriminate|intros H; elim H; now left].
  - apply eqb_neq in Hk. rewrite IH.
    split; [intros H [E|I]; [congruence|tauto]|tauto].
Qed.

Lemma get_app_last d k k' v :
  PyDict.get k (d ++ [(k', v)])
  = match PyDict.get k d with
    | Some x => Some x
    | None => if eqb k k' then Some v else None
    end.
Proof.
  induction d as [|[k0 v0] d IH]; simpl; [reflexivity|].
  destruct (eqb k k0); auto.
Qed.

Lemma contains_false d k :
  PyDict.contains k d = false <-> PyDict.get k d = None.
Proof.
  unfold PyDict.contains; destruct (PyDict.get k d); split;
    congruence.
Qed.

End DictFacts.

(** ** What saving and exporting leave alone *)

Section FrameFacts.

Variable E : env.

Lemma save_data_memory (s : state) :
  dictionary (snd (save_data E s)) = dictionary s
  /\ language_data (snd (save_data E s)) = language_data s
  /\ export_csv_path (snd (save_data E s)) = export_csv_path s.
Proof.
  unfold save_data.
  destruct (copied _ _); [|simpl; auto].
  destruct (copied _ _); [|simpl; auto].
  destruct (write_dictionary E); simpl; auto.
  destruct (write_language_data E); simpl; auto.
Qed.

Lemma export_memory (language : pystr) (csv_path : option pystr)
      (s : state) :
  let s' := snd (export_dictionary_to_csv E language csv_path s) in
  dictionary s' = dictionary s
  /\ language_data s' = language_data s
  /\ export_csv_path s' = export_csv_path s.
Proof.
  cbv zeta; unfold export_dictionary_to_csv; simpl.
  destruct (PyDict.get _ _); [|simpl; auto].
  destruct (open_csv_for_writing_ok E _); [|simpl; auto].
  destruct (csv_write_error E _); simpl; auto.
Qed.

Lemma save_data_calls (s : state) :
  calls (snd (save_data E s)) = calls s ++ [Saved].
Proof.
  unfold save_data.
  destruct (copied _ _); [|reflexivity].
  destruct (copied _ _); [|reflexivity].
  destruct (write_dictionary E); try reflexivity.
  destruct (write_language_data E); reflexivity.
Qed.

(** The export to the manager's own path, as every mutation calls it. *)
Lemma export_calls_mirror (language : pystr) (s : state) :
  calls (snd (export_dictionary_to_csv E language
                (Some (export_csv_path s)) s))
  = calls s ++ [Exported language (export_csv_path s)].
Proof.
  unfold export_dictionary_to_csv, export_target.
  destruct (truthy (export_csv_path s)); simpl;
    (destruct (PyDict.get _ _);
     [destruct (open_csv_for_writing_ok E _);
      [destruct (csv_write_error E _)|]|]; reflexivity).
Qed.

(** The export touches one file: the backing files, their backups and every
    other CSV file are as before. *)
Lemma export_other_files (language : pystr) (csv_path : option pystr)
      (s : state) :
  let fs' := disk (snd (export_dictionary_to_csv E language csv_path s)) in
  dictionary_file fs' = dictionary_file (disk s)
  /\ language_data_file fs' = language_data_file (disk s)
  /\ dictionary_backups fs' = dictionary_backups (disk s)
  /\ language_data_backups fs' = language_data_backups (disk s)
  /\ forall path,
       path <> export_target csv_path s ->
       PyDict.get path (csv_files fs') = PyDict.get path (csv_files (disk s)).
Proof.
  cbv zeta; unfold export_dictionary_to_csv; simpl.
  destruct (PyDict.get _ _); [|simpl; auto 6].
  destruct (open_csv_for_writing_ok E _); [|simpl; auto 6].
  destruct (csv_write_error E _); simpl;
    (do 4 (split; [reflexivity|]));
    intros path Hpath; now apply get_setitem_other.
Qed.

Lemma rows_written_all (rows : list (list pystr)) :
  forallb encodable rows = true -> rows_written rows = rows.
Proof.
  induction rows as [|r rows IH]; simpl; [reflexivity|].
  intros H; apply andb_true_iff in H as [Hr Hrows].
  now rewrite Hr, (IH Hrows).
Qed.

Lemma delivered_all (recs : list (list pystr)) :
  forallb (forallb within_limit) recs = true -> delivered recs = recs.
Proof.
  induction recs as [|r recs IH]; simpl; [reflexivity|].
  intros H; apply andb_true_iff in H as [Hr Hrecs].
  now rewrite Hr, (IH Hrecs).
Qed.

(** Records that all keep within the limit are read as they were written. *)
Lemma as_read_whole (recs : list (list pystr)) :
  forallb (forallb within_limit) recs = true ->
  as_read recs = {| records := recs; unreadable_tail := None |}.
Proof.
  intros H; unfold as_read.
  now rewrite H, (delivered_all recs H).
Qed.

(** The reader stops at the first record with a field over the limit. *)
Lemma as_read_cut (before after : list (list pystr)) (r : list pystr) :
  forallb (forallb within_limit) before = true ->
  forallb within_limit r = false ->
  as_read (before ++ r :: after)
  = {| records := before;
       unreadable_tail :=
         Some "field larger than field limit (131072)"%string |}.
Proof.
  intros Hbefore Hr; unfold as_read.
  rewrite forallb_app.
  change (forallb (forallb within_limit) (r :: after))
    with (forallb within_limit r && forallb (forallb within_limit) after).
  rewrite Hr, andb_false_r.
  f_equal.
  induction before as [|b before IH]; simpl; [now rewrite Hr|].
  simpl in Hbefore; apply andb_true_iff in Hbefore as [Hb Hrest].
  now rewrite Hb, (IH Hrest).
Qed.

(** The export of a bucket whose rows can all be encoded and read back
    leaves the table of the bucket. *)
Lemma exported_table (words : bucket) :
  portable words = true -> exported words = table words.
Proof.
  unfold portable, exported, table; intros H.
  apply andb_true_iff in H as [Hcode Hfit].
  rewrite (rows_written_all _ Hcode).
  now apply as_read_whole.
Qed.

(** [ensure_language] does nothing, or adds an empty bucket at the end. *)
Lemma ensure_language_cases (language : pystr) (s : state) :
  ensure_language language s = s
  \/ (PyDict.get language (dictionary s) = None
      /\ ensure_language language s
         = set_dictionary (dictionary s ++ [(language, [])]) s).
Proof.
  unfold ensure_language.
  destruct (PyDict.contains language (dictionary s)) eqn:Hc; [now left|].
  right. apply contains_false in Hc.
  split; [exact Hc|].
  now rewrite (setitem_absent _ _ _ Hc).
Qed.

Lemma has_word_ensure_language (word language : pystr) (s : state) :
  has_word word language (ensure_language language s)
  = has_word word language s.
Proof.
  destruct (ensure_language_cases language s) as [-> | [Hn ->]];
    [reflexivity|].
  unfold has_word; simpl.
  rewrite get_app_last, eqb_refl.
  plain_types.
  now rewrite Hn.
Qed.

(** An empty bucket added at the end changes no lookup. *)
Lemma get_definition_empty_bucket (word language l : pystr) (s : state) :
  get_definition E word language
    (set_dictionary (dictionary s ++ [(l, [])]) s)
  = get_definition E word language s.
Proof.
  unfold get_definition; simpl.
  rewrite get_app_last.
  case_get language (dictionary s); [reflexivity|].
  destruct (eqb language l); reflexivity.
Qed.

End FrameFacts.

(** ** Adding words *)

Section AddingWords.

Variable E : env.

(** C3, as amended.  When one of the three fields is empty,
    [manual_add_word] fails; it calls neither [save_data] nor the export and
    touches no file; no word is added and no lookup changes.  The bucket of
    the language is created before the fields are looked at, so the one
    change the call can make to the store is an empty bucket for a language
    that had none, put last. *)
Theorem manual_add_word_missing_field
        (word language d p x : pystr) (s : state) :
  d = [] \/ p = [] \/ x = [] ->
  let r := manual_add_word E word language d p x s in
  fst (fst r) = false
  /\ (snd r = s
      \/ (PyDict.get language (dictionary s) = None
          /\ snd r = set_dictionary (dictionary s ++ [(language, [])]) s))
  /\ (forall w l, get_definition E w l (snd r) = get_definition E w l s).
Proof.
  intros H; cbv zeta; unfold manual_add_word.
  assert (Hf : negb (truthy d && truthy p && truthy x) = true).
  { destruct H as [-> | [-> | ->]]; simpl;
      rewrite ?andb_false_r; reflexivity. }
  rewrite Hf.
  destruct (negb (truthy (strip (lower E word)))); simpl.
  { repeat split; auto. }
  destruct (has_word _ _ _); simpl; (split; [reflexivity|]);
    destruct (ensure_language_cases language s) as [-> | [Hn ->]];
    (split; [auto | intros; try apply get_definition_empty_bucket; auto]).
Qed.

(** C4, as amended.  For a word that is non-empty in normal form and not
    yet in the language, with the three fields not all supplied and a fetch
    that returns nothing, [add_word] fails with the message that carries
    the marker "manualmente"; the fetcher was consulted once and nothing was
    saved or exported, so no file changes and no CSV file appears; no word
    is added and no lookup changes.  As in [manual_add_word], an empty
    bucket is created for a language that had none. *)
Theorem add_word_nothing_fetched
        (word language : pystr) (d p x : option pystr) (s : state) :
  given d && given p && given x = false ->
  normal_form E word <> [] ->
  has_word (normal_form E word) language s = false ->
  fetch_definition_from_api E (normal_form E word) language = None ->
  let r := add_word E word language d p x s in
  fst r = (false, MsgNotFoundInApi)
  /\ asks_for_manual_entry (snd (fst r)) = true
  /\ disk (snd r) = disk s
  /\ calls (snd r) = calls s ++ [Fetched (normal_form E word) language]
  /\ (dictionary (snd r) = dictionary s
      \/ (PyDict.get language (dictionary s) = None
          /\ dictionary (snd r) = dictionary s ++ [(language, [])]))
  /\ (forall w l, get_definition E w l (snd r) = get_definition E w l s).
Proof.
  unfold normal_form; intros Hg Hw Hh Hf; cbv zeta; unfold add_word.
  rewrite (proj2 (truthy_true _) Hw); simpl negb; cbv iota.
  rewrite has_word_ensure_language, Hh, Hf.
  assert (Hr : forall s0 : state,
             match d, p, x with
             | Some d0, Some p0, Some x0 =>
                 if truthy d0 && truthy p0 && truthy x0
                 then (true, MsgAdded,
                       store_word E (strip (lower E word)) language
                         {| definition := d0; part_of_speech := p0;
                            example := x0 |} s0)
                 else (false, MsgNotFoundInApi,
                       record_call
                         (Fetched (strip (lower E word)) language) s0)
             | _, _, _ =>
                 (false, MsgNotFoundInApi,
                  record_call (Fetched (strip (lower E word)) language) s0)
             end
             = (false, MsgNotFoundInApi,
                record_call (Fetched (strip (lower E word)) language) s0)).
  { intros s0; destruct d as [d0|], p as [p0|], x as [x0|]; try reflexivity.
    simpl in Hg; now rewrite Hg. }
  rewrite Hr; simpl.
  split; [reflexivity|]. split; [reflexivity|].
  destruct (ensure_language_cases language s) as [-> | [Hn ->]]; simpl;
    (split; [reflexivity|]); (split; [reflexivity|]);
    (split; [auto|]); intros w l; [reflexivity|].
  apply (get_definition_empty_bucket E w l language s).
Qed.

(** C9.  For a word whose normal form is already in the bucket of the
    language, [add_word] returns the conflict failure and the state is the
    one it was given: no fetch, no [save_data], no export was recorded, and
    memory and files are untouched. *)
Theorem add_word_duplicate
        (word language : pystr) (d p x : option pystr) (s : state) :
  normal_form E word <> [] ->
  has_word (normal_form E word) language s = true ->
  add_word E word language d p x s = ((false, MsgAlreadyExists), s).
Proof.
  unfold normal_form; intros Hw Hh; unfold add_word.
  rewrite (proj2 (truthy_true _) Hw); simpl negb; cbv iota.
  rewrite has_word_ensure_language, Hh.
  f_equal.
  unfold ensure_language, PyDict.contains.
  unfold has_word in Hh.
  destruct (PyDict.get language (dictionary s)); [reflexivity|discriminate].
Qed.

End AddingWords.

(** C3, refuted as stated.  On the empty dictionary, a manual add with an
    empty definition fails, and the dictionary has gained the bucket "en". *)
Lemma manual_add_word_missing_field_counterexample :
  let r := manual_add_word calm (py "book") (py "en") [] (py "noun")
             (py "She read a book.") fresh in
  dictionary fresh = []
  /\ fst r = (false, MsgFieldsRequired)
  /\ dictionary (snd r) = [(py "en", [])].
Proof. repeat split; reflexivity. Qed.

Lemma manual_add_word_missing_field_witness :
  fst (fst (manual_add_word calm (py "book") (py "en") [] (py "noun")
              (py "She read a book.") fresh)) = false.
Proof.
  exact (proj1 (@manual_add_word_missing_field calm (py "book") (py "en")
                  [] (py "noun") (py "She read a book.") fresh
                  (or_introl eq_refl))).
Defined.

(** C4, refuted as stated.  On the empty dictionary, adding "qwerty" when
    the API answers 404 fails with the manual-entry message, and the
    dictionary has gained the bucket "en"; and for a word of spaces the
    failure is another one, without the marker. *)
Lemma add_word_nothing_fetched_counterexample :
  let r := add_word calm (py "qwerty") (py "en") None None None fresh in
  let r' := add_word calm (py "  ") (py "en") None None None fresh in
  fetch_definition_from_api calm (py "qwerty") (py "en") = None
  /\ dictionary fresh = []
  /\ fst r = (false, MsgNotFoundInApi)
  /\ dictionary (snd r) = [(py "en", [])]
  /\ fst r' = (false, MsgEmptyWord)
  /\ asks_for_manual_entry (snd (fst r')) = false.
Proof. repeat split; reflexivity. Qed.

Lemma add_word_nothing_fetched_witness :
  fst (add_word calm (py "Qwerty ") (py "en") None None None fresh)
  = (false, MsgNotFoundInApi).
Proof.
  apply (@add_word_nothing_fetched calm (py "Qwerty ") (py "en")
           None None None fresh);
    [reflexivity | discriminate | reflexivity | reflexivity].
Defined.

Lemma add_word_duplicate_witness :
  add_word calm (py " Apple") (py "en") None None None with_apple
  = ((false, MsgAlreadyExists), with_apple).
Proof.
  apply add_word_duplicate; [discriminate | reflexivity].
Defined.

(** ** Loading and saving *)

Section Persistence.

Variable E : env.

(** C6, as amended.  [save_data] copies each backing file to its backup
    without looking whether the file is there.  So when a backing file is
    missing the save fails, and neither backing file is written.  It returns
    true exactly when both files are there and no operation on them fails;
    the backups under the current timestamp then hold what the files held
    and the files hold the dictionary and the language data of the manager.
    Every error ends in the result false, and in every case the dictionary
    and the language data in memory are as before. *)
Theorem save_data_outcome (s : state) :
  let r := save_data E s in
  (dictionary (snd r) = dictionary s
   /\ language_data (snd r) = language_data s)
  /\ (dictionary_file (disk s) = None \/ language_data_file (disk s) = None ->
      fst r = false
      /\ dictionary_file (disk (snd r)) = dictionary_file (disk s)
      /\ language_data_file (disk (snd r)) = language_data_file (disk s))
  /\ (fst r = true <->
      dictionary_file (disk s) <> None
      /\ language_data_file (disk s) <> None
      /\ nothing_fails E = true)
  /\ (fst r = true ->
      dictionary_file (disk (snd r)) = Some (WellFormed (dictionary s))
      /\ language_data_file (disk (snd r))
         = Some (WellFormed (language_data s))
      /\ PyDict.get (now E) (dictionary_backups (disk (snd r)))
         = dictionary_file (disk s)
      /\ PyDict.get (now E) (language_data_backups (disk (snd r)))
         = language_data_file (disk s)).
Proof.
  cbv zeta.
  split; [destruct (save_data_memory E s) as (H1 & H2 & _); auto|].
  unfold save_data, nothing_fails, copied, validate_json, json_load, dumped.
  simpl.
  split; [|split].
  - intros [H|H]; rewrite H; [auto|].
    destruct (dictionary_file (disk s)) as [fd|] eqn:Hd,
      (copy_dictionary_ok E); simpl; rewrite ?H, ?Hd; auto.
  - destruct (dictionary_file (disk s)) as [fd|],
      (language_data_file (disk s)) as [fl|],
      (copy_dictionary_ok E), (copy_language_data_ok E),
      (write_dictionary E), (write_language_data E),
      (read_dictionary_ok E), (read_language_data_ok E);
      simpl; intuition (try discriminate; try congruence).
  - destruct (dictionary_file (disk s)) as [fd|] eqn:Hd;
      destruct (language_data_file (disk s)) as [fl|] eqn:Hl;
      destruct (copy_dictionary_ok E), (copy_language_data_ok E),
        (write_dictionary E), (write_language_data E),
        (read_dictionary_ok E), (read_language_data_ok E);
      simpl; try discriminate; intros _;
      rewrite !get_setitem_same; auto.
Qed.

(** C7, as amended.  [load_data] always returns, and touches no file.  When
    both backing files are there, can be read and are well-formed, each
    structure is loaded from its own file.  When either file is missing,
    cannot be read or is malformed, both structures are emptied, the one
    whose own file is readable and well-formed included. *)
Theorem load_data_outcome (s : state) :
  disk (load_data E s) = disk s
  /\ (forall d l,
        dictionary_file (disk s) = Some (WellFormed d) ->
        language_data_file (disk s) = Some (WellFormed l) ->
        read_dictionary_ok E = true -> read_language_data_ok E = true ->
        dictionary (load_data E s) = d /\ language_data (load_data E s) = l)
  /\ ((dictionary_file (disk s) = None
       \/ dictionary_file (disk s) = Some Malformed
       \/ read_dictionary_ok E = false
       \/ language_data_file (disk s) = None
       \/ language_data_file (disk s) = Some Malformed
       \/ read_language_data_ok E = false) ->
      dictionary (load_data E s) = [] /\ language_data (load_data E s) = []).
Proof.
  unfold load_data, json_load.
  split; [|split].
  - destruct (dictionary_file (disk s)) as [[d|]|],
      (language_data_file (disk s)) as [[l|]|],
      (read_dictionary_ok E), (read_language_data_ok E); reflexivity.
  - intros d l -> -> -> ->; auto.
  - intros [-> | [-> | [-> | [-> | [-> | ->]]]]]; auto;
      destruct (dictionary_file (disk s)) as [[d|]|],
        (language_data_file (disk s)) as [[l|]|];
      auto; destruct (read_dictionary_ok E); auto.
Qed.

End Persistence.

(** C6, refuted as stated.  With the dictionary file missing and nothing
    else wrong, [save_data] returns false and the file is still missing. *)
Lemma save_data_missing_file_counterexample :
  dictionary_file (disk dictionary_file_missing) = None
  /\ nothing_fails calm = true
  /\ fst (save_data calm dictionary_file_missing) = false
  /\ dictionary_file (disk (snd (save_data calm dictionary_file_missing)))
     = None.
Proof. repeat split; reflexivity. Qed.

Lemma save_data_outcome_witness :
  fst (save_data calm dictionary_file_missing) = false.
Proof.
  apply (save_data_outcome calm dictionary_file_missing).
  left; reflexivity.
Defined.

(** C7, refuted as stated.  The dictionary file is well-formed and holds
    "apple"; the language file does not parse.  After [load_data], and after
    the whole construction, the dictionary is empty. *)
Lemma load_data_one_malformed_counterexample :
  let s := set_disk language_file_malformed fresh in
  dictionary_file (disk s)
    = Some (WellFormed [(py "en", [(py "apple", apple)])])
  /\ language_data_file (disk s) = Some Malformed
  /\ dictionary (load_data calm s) = []
  /\ dictionary (init calm mirror language_file_malformed) = [].
Proof. repeat split; reflexivity. Qed.

Lemma load_data_outcome_witness :
  dictionary (load_data calm (set_disk language_file_malformed fresh)) = []
  /\ language_data (load_data calm (set_disk language_file_malformed fresh))
     = [].
Proof.
  apply (load_data_outcome calm (set_disk language_file_malformed fresh)).
  do 4 right; left; reflexivity.
Defined.

(** ** Words and language codes *)

(** The operations that take a word use it only in its normal form: two
    spellings with one normal form are one word to them. *)
Lemma word_used_in_normal_form (E : env) (w1 w2 language : pystr)
      (d p x : option pystr) (d' p' x' : pystr) (s : state) :
  normal_form E w1 = normal_form E w2 ->
  add_word E w1 language d p x s = add_word E w2 language d p x s
  /\ manual_add_word E w1 language d' p' x' s
     = manual_add_word E w2 language d' p' x' s
  /\ get_definition E w1 language s = get_definition E w2 language s
  /\ remove_word E w1 language s = remove_word E w2 language s.
Proof.
  unfold normal_form, add_word, manual_add_word, get_definition,
    remove_word.
  intros ->; auto.
Qed.

(** C2 at its failing input.  The word is put in normal form by every
    operation that takes one, and [list_words], [set_language] and the
    export do the same to the language code; [add_word], [manual_add_word],
    [get_definition] and [remove_word] use the code as given.  So "apple"
    added under "EN" is not found under "en", [list_words] and the export,
    which look for "en", do not see the bucket "EN" at all, and a second add
    under "en" makes a second bucket beside the first. *)
Lemma language_code_used_as_given :
  let add language :=
    manual_add_word calm (py "apple") language (py "A fruit") (py "noun")
      (py "An apple a day.") in
  let r1 := add (py "EN") fresh in
  let r2 := add (py "en") (snd r1) in
  fst r1 = (true, MsgAdded)
  /\ get_definition calm (py "Apple ") (py "EN") (snd r1) = Some apple
  /\ get_definition calm (py "apple") (py "en") (snd r1) = None
  /\ list_words calm (py "EN") (snd r1) = None
  /\ fst (export_dictionary_to_csv calm (py "EN") None (snd r1)) = false
  /\ fst (remove_word calm (py "apple") (py "en") (snd r1))
     = (false, MsgWordNotFound)
  /\ fst r2 = (true, MsgAdded)
  /\ PyDict.keys (dictionary (snd r2)) = [py "EN"; py "en"].
Proof. repeat split; reflexivity. Qed.

(** ** Importing rows with missing cells *)

(** C5 at its failing input.  The file has the header, a full row, and the
    row [pear,,].  That row has an empty definition, so it is one the import
    is to skip; but it has no fourth cell, the reader gives [None] for
    ['example'], and [.strip()] on it raises before the row is looked at.
    The import returns the failure; "flower" is in memory, nothing was
    saved or exported, and no file has changed. *)
Lemma import_short_row_fails :
  let s := with_csv short_row_csv fresh in
  let r := import_dictionary_from_csv calm (py "in.csv") (py "en") s in
  fst r = (false, MsgImportError (AttributeError "strip"))
  /\ PyDict.keys (words_of (py "en") (dictionary (snd r))) = [py "flower"]
  /\ calls (snd r) = []
  /\ disk (snd r) = disk s.
Proof. repeat split; reflexivity. Qed.


(** ** Importing rows that have all their cells *)

Section ImportFacts.

Variable E : env.

Lemma get_setitem (V : Type) (d : PyDict.pydict V) (k k' : pystr) (v : V) :
  PyDict.get k' (PyDict.setitem k v d)
  = if eqb k' k then Some v else PyDict.get k' d.
Proof.
  destruct (eqb k' k) eqn:Hk.
  - apply eqb_eq in Hk; subst; apply get_setitem_same.
  - apply get_setitem_other; now apply eqb_neq.
Qed.

Lemma fold_setitem_complete (pairs : list (pystr * option pystr)) :
  forall row : reader_row,
    complete row ->
    Forall (fun kv => snd kv <> None) pairs ->
    complete (fold_left (fun d kv => PyDict.setitem (fst kv) (snd kv) d)
                        pairs row).
Proof.
  induction pairs as [|[k v] pairs IH]; intros row Hrow Hall; [exact Hrow|].
  inversion Hall as [|? ? Hv Hrest]; subst; simpl in *.
  apply IH; [|exact Hrest].
  intros k'; rewrite get_setitem.
  destruct (eqb k' k); [congruence|apply Hrow].
Qed.

Lemma pair_up_some (names : list pystr) :
  forall cells,
    List.length names <= List.length cells ->
    Forall (fun kv : pystr * option pystr => snd kv <> None)
           (pair_up names cells).
Proof.
  induction names as [|k names IH]; intros cells Hlen; simpl; [constructor|].
  destruct cells as [|c cells]; simpl in Hlen; [lia|].
  constructor; [discriminate|apply IH; lia].
Qed.

(** A record with a cell for every field name makes a complete row. *)
Lemma dict_row_complete (names cells : list pystr) :
  List.length names <= List.length cells -> complete (dict_row names cells).
Proof.
  intros Hlen; unfold dict_row.
  apply fold_setitem_complete; [intros k; discriminate|].
  now apply pair_up_some.
Qed.

Lemma row_get_complete (key : pystr) (row : reader_row) :
  complete row -> exists cell, row_get key row = Some cell.
Proof.
  intros Hrow; unfold row_get.
  specialize (Hrow key).
  destruct (PyDict.get key row) as [[cell|]|]; eauto; congruence.
Qed.

Lemma keeps_refl (d : lexicon) : keeps d d.
Proof. intros l b w e Hl Hw; eauto. Qed.

Lemma keeps_trans (a b c : lexicon) : keeps a b -> keeps b c -> keeps a c.
Proof.
  intros Hab Hbc l x w e Hl Hw.
  destruct (Hab l x w e Hl Hw) as (x' & Hl' & Hw'); eauto.
Qed.

Lemma keeps_setdefault (language : pystr) (d : lexicon) :
  keeps d (PyDict.setdefault language [] d).
Proof.
  unfold PyDict.setdefault, PyDict.contains.
  case_get language d; [apply keeps_refl|].
  intros l b w e Hl Hw; exists b; split; [|exact Hw].
  rewrite get_setitem.
  destruct (eqb l language) eqn:Hk; [|exact Hl].
  apply eqb_eq in Hk; subst l; plain_types; congruence.
Qed.

(** Storing a word that the bucket does not have keeps the others. *)
Lemma keeps_new_word (language word : pystr) (e : entry) (d : lexicon) :
  PyDict.contains word (words_of language d) = false ->
  keeps d (PyDict.setitem language
             (PyDict.setitem word e (words_of language d)) d).
Proof.
  intros Hnew l b w e' Hl Hw.
  rewrite get_setitem.
  destruct (eqb l language) eqn:Hk; [|eauto].
  apply eqb_eq in Hk; subst l.
  eexists; split; [reflexivity|].
  unfold words_of in *; plain_types; rewrite Hl in *.
  rewrite get_setitem.
  destruct (eqb w word) eqn:Hww; [|exact Hw].
  apply eqb_eq in Hww; subst w.
  apply contains_false in Hnew; plain_types; congruence.
Qed.

(** One step of the loop on a complete row: it does not raise, it counts
    the row once, as added or as skipped, and it overwrites nothing. *)
Lemma import_row_complete (language : pystr) (row : reader_row)
      (prog : progress) :
  complete row ->
  exists prog',
    import_row E language row prog = inr prog'
    /\ count_added prog' + count_skipped prog'
       = count_added prog + count_skipped prog + 1
    /\ keeps (imported prog) (imported prog').
Proof.
  intros Hrow; unfold import_row.
  destruct (row_get_complete (py "word") Hrow) as (w & ->).
  destruct (row_get_complete (py "definition") Hrow) as (d & ->).
  destruct (row_get_complete (py "part_of_speech") Hrow) as (p & ->).
  destruct (row_get_complete (py "example") Hrow) as (x & ->).
  simpl.
  destruct (negb (truthy (strip (lower E w))) || negb (truthy (strip d))
            || negb (truthy (strip p))).
  { eexists; split; [reflexivity|]; simpl; split; [lia|apply keeps_refl]. }
  fold (words_of (lower E language)
          (PyDict.setdefault (lower E language) [] (imported prog))).
  destruct (PyDict.contains (strip (lower E w)) _) eqn:Hc; simpl.
  - eexists; split; [reflexivity|]; simpl; split; [lia|].
    apply keeps_setdefault.
  - eexists; split; [reflexivity|]; simpl; split; [lia|].
    eapply keeps_trans; [apply keeps_setdefault|].
    now apply keeps_new_word.
Qed.

Lemma import_rows_complete (language : pystr) (rows : list reader_row) :
  Forall complete rows ->
  forall prog,
  exists prog',
    import_rows E language rows prog = (prog', None)
    /\ count_added prog' + count_skipped prog'
       = count_added prog + count_skipped prog + List.length rows
    /\ keeps (imported prog) (imported prog').
Proof.
  induction 1 as [|row rows Hrow _ IH]; intros prog.
  - exists prog; simpl; split; [reflexivity|].
    split; [lia|apply keeps_refl].
  - destruct (import_row_complete language prog Hrow)
      as (prog1 & Hstep & Hcount & Hkeep).
    destruct (IH prog1) as (prog' & Hloop & Hcount' & Hkeep').
    exists prog'; simpl; rewrite Hstep, Hloop.
    split; [reflexivity|].
    split; [simpl; lia|eapply keeps_trans; eauto].
Qed.

(** X22.  The import of a readable file in which every record that is not
    blank has a cell for each name of the header.  It succeeds; the two counts it
    reports add up to the number of rows; nothing that was stored is
    overwritten; and [save_data] and the export are each called once, after
    the loop. *)
Theorem import_complete_file (csv_path language : pystr) (s : state)
        (names : list pystr) (rest : list (list pystr)) :
  PyDict.get csv_path (csv_files (disk s))
  = Some {| records := names :: rest; unreadable_tail := None |} ->
  Forall (fun r => r = [] \/ List.length names <= List.length r) rest ->
  let r := import_dictionary_from_csv E csv_path language s in
  exists added skipped,
    fst r = (true, MsgImported added skipped)
    /\ added + skipped
       = List.length (filter (fun r => negb (is_blank_record r)) rest)
    /\ keeps (dictionary s) (dictionary (snd r))
    /\ calls (snd r)
       = calls s ++ [Saved; Exported language (export_csv_path s)].
Proof.
  intros Hfile Hall; cbv zeta.
  unfold import_dictionary_from_csv; rewrite Hfile.
  set (rows := rows_read _).
  assert (Hrows : Forall complete rows
                  /\ List.length rows
                     = List.length
                         (filter (fun r => negb (is_blank_record r)) rest)).
  { subst rows; unfold rows_read, DictReader; simpl records; simpl map.
    clear Hfile; induction rest as [|r rest IH]; [split; constructor|].
    inversion Hall as [|? ? Hr Hrest]; subst.
    destruct (IH Hrest) as (IH1 & IH2).
    destruct r as [|c r]; [exact (conj IH1 IH2)|].
    destruct Hr as [Hr|Hr]; [discriminate|].
    simpl; split; [|now rewrite IH2].
    constructor; [|exact IH1].
    apply dict_row_complete.
    change (map (map universal_newlines) (names :: nil)) with
      [map universal_newlines names] in *.
    simpl List.length in *; rewrite !length_map in *; exact Hr. }
  destruct Hrows as (Hcomplete & Hlen).
  destruct (import_rows_complete language Hcomplete
              {| imported := dictionary s; count_added := 0;
                 count_skipped := 0 |})
    as (prog' & Hloop & Hcount & Hkeep).
  rewrite Hloop; simpl unreadable_tail; cbv iota beta.
  exists (count_added prog'), (count_skipped prog').
  split; [reflexivity|].
  split; [simpl in Hcount; lia|].
  simpl snd.
  rewrite export_calls_mirror, save_data_calls.
  match goal with
  | |- context [export_dictionary_to_csv E language ?q ?t] =>
      destruct (export_memory E language q t) as (-> & _ & _)
  end.
  match goal with
  | |- context [save_data E ?t] =>
      destruct (save_data_memory E t) as (-> & _ & ->)
  end.
  simpl; split; [exact Hkeep|now rewrite <- app_assoc].
Qed.

Lemma rows_read_complete (names : list pystr) (rest : list (list pystr)) :
  Forall (fun r => r = [] \/ List.length names <= List.length r) rest ->
  Forall complete
    (rows_read {| records := names :: rest; unreadable_tail := None |})
  /\ List.length
       (rows_read {| records := names :: rest; unreadable_tail := None |})
     = List.length (filter (fun r => negb (is_blank_record r)) rest).
Proof.
  intros Hall; unfold rows_read, DictReader; simpl records; simpl map.
  induction rest as [|r rest IH]; [split; constructor|].
  inversion Hall as [|? ? Hr Hrest]; subst.
  destruct (IH Hrest) as (IH1 & IH2).
  destruct r as [|c r]; [exact (conj IH1 IH2)|].
  destruct Hr as [Hr|Hr]; [discriminate|].
  simpl; split; [|now rewrite IH2].
  constructor; [|exact IH1].
  apply dict_row_complete.
  simpl List.length in *; rewrite !length_map in *; exact Hr.
Qed.

Lemma import_row_cells_of (language : pystr) (row : reader_row)
      (p : progress) :
  complete row ->
  import_row E language row p
  = inr (step_on_cells E language (cell (py "word") row)
           (cell (py "definition") row) (cell (py "part_of_speech") row)
           (cell (py "example") row) p).
Proof.
  intros Hrow.
  destruct (row_get_complete (py "word") Hrow) as (w & Hw).
  destruct (row_get_complete (py "definition") Hrow) as (d & Hd).
  destruct (row_get_complete (py "part_of_speech") Hrow) as (q & Hq).
  destruct (row_get_complete (py "example") Hrow) as (x & Hx).
  unfold import_row, step_on_cells, cell, words_of; rewrite Hw, Hd, Hq, Hx.
  simpl.
  destruct (negb (truthy (strip (lower E w))) || negb (truthy (strip d))
            || negb (truthy (strip q))); [reflexivity|].
  destruct (negb _); reflexivity.
Qed.





End ImportFacts.

(** A file of one line has a header and no row: its import succeeds with
    nothing added and nothing skipped, and saves and exports. *)
Lemma import_header_only_succeeds :
  let r := import_dictionary_from_csv calm (py "in.csv") (py "en")
             (with_csv header_only_csv fresh) in
  fst r = (true, MsgImported 0 0)
  /\ dictionary (snd r) = []
  /\ calls (snd r) = [Saved; Exported (py "en") mirror].
Proof. repeat split; reflexivity. Qed.


(** ** Export, then import *)

Section RoundTrip.

Variable E : env.

Lemma rows_read_exported (b : bucket) :
  rows_read {| records := fieldnames :: map export_row b;
               unreadable_tail := None |}
  = map read_back b.
Proof.
  unfold rows_read, DictReader; simpl records.
  change (map (map universal_newlines) (fieldnames :: map export_row b))
    with (fieldnames :: map (map universal_newlines) (map export_row b)).
  induction b as [|item b IH]; [reflexivity|].
  simpl; f_equal; exact IH.
Qed.

(** One loop step on a row with its four cells. *)
Lemma import_row_cells (language w d p x : pystr) (prog : progress) :
  import_row E language (dict_row fieldnames [w; d; p; x]) prog
  = inr
      (if negb (truthy (strip (lower E w))) || negb (truthy (strip d))
          || negb (truthy (strip p))
       then {| imported := imported prog;
               count_added := count_added prog;
               count_skipped := count_skipped prog + 1 |}
       else
         let dct := PyDict.setdefault (lower E language) [] (imported prog) in
         if negb (PyDict.contains (strip (lower E w))
                    (words_of (lower E language) dct))
         then {| imported :=
                   PyDict.setitem (lower E language)
                     (PyDict.setitem (strip (lower E w))
                        {| definition := strip d; part_of_speech := strip p;
                           example := strip x |}
                        (words_of (lower E language) dct)) dct;
                 count_added := count_added prog + 1;
                 count_skipped := count_skipped prog |}
         else {| imported := dct;
                 count_added := count_added prog;
                 count_skipped := count_skipped prog + 1 |}).
Proof.
  unfold import_row, words_of; simpl.
  destruct (negb (truthy (strip (lower E w))) || negb (truthy (strip d))
            || negb (truthy (strip p))); [reflexivity|].
  destruct (negb _); reflexivity.
Qed.

Lemma words_of_setdefault (language : pystr) (dct : lexicon) :
  words_of language (PyDict.setdefault language [] dct)
  = words_of language dct.
Proof.
  unfold PyDict.setdefault, words_of, PyDict.contains.
  case_get language dct; [now rewrite Hget|].
  now rewrite get_setitem_same.
Qed.

Lemma words_of_setitem (language : pystr) (b : bucket) (dct : lexicon) :
  words_of language (PyDict.setitem language b dct) = b.
Proof. unfold words_of; now rewrite get_setitem_same. Qed.

(** An importable item is read back and stored as it is, after the words
    already there. *)
Lemma import_row_importable (language : pystr) (item : pystr * entry)
      (prog : progress) :
  importable E item ->
  ~ In (fst item) (PyDict.keys (words_of (lower E language) (imported prog))) ->
  exists dct,
    import_row E language (read_back item) prog
    = inr {| imported := dct;
             count_added := count_added prog + 1;
             count_skipped := count_skipped prog |}
    /\ words_of (lower E language) dct
       = words_of (lower E language) (imported prog) ++ [item].
Proof.
  destruct item as [w [d p x]]; unfold importable, verbatim, normal_form.
  simpl fst; simpl snd; simpl definition; simpl part_of_speech;
    simpl example.
  intros (Hw & Hnf & Hcr & Hd & (Hds & Hdc) & Hp & (Hps & Hpc) & (Hxs & Hxc))
         Hnew.
  unfold read_back, export_row; simpl map.
  rewrite (universal_newlines_id w Hcr), (universal_newlines_id d Hdc),
    (universal_newlines_id p Hpc), (universal_newlines_id x Hxc).
  rewrite import_row_cells, Hnf, Hds, Hps, Hxs.
  rewrite (proj2 (truthy_true w) Hw), (proj2 (truthy_true d) Hd),
    (proj2 (truthy_true p) Hp); simpl orb; cbv iota zeta.
  rewrite words_of_setdefault.
  apply get_none_iff in Hnew.
  rewrite (proj2 (contains_false _ _) Hnew); simpl negb; cbv iota.
  eexists; split; [reflexivity|].
  now rewrite words_of_setitem, (setitem_absent _ _ _ Hnew).
Qed.

(** The loop over the exported rows of a bucket adds them all, in order. *)
Lemma import_rows_importable (language : pystr) (b2 : bucket) :
  forall (prog : progress),
    NoDup (PyDict.keys (words_of (lower E language) (imported prog) ++ b2)) ->
    Forall (importable E) b2 ->
    exists dct,
      import_rows E language (map read_back b2) prog
      = ({| imported := dct;
            count_added := count_added prog + List.length b2;
            count_skipped := count_skipped prog |}, None)
      /\ words_of (lower E language) dct
         = words_of (lower E language) (imported prog) ++ b2.
Proof.
  induction b2 as [|item b2 IH]; intros prog Hnd Hall.
  - exists (imported prog); simpl.
    rewrite Nat.add_0_r, app_nil_r; destruct prog; auto.
  - inversion Hall as [|? ? Hitem Hrest]; subst.
    assert (Hnew : ~ In (fst item)
                     (PyDict.keys
                        (words_of (lower E language) (imported prog)))).
    { unfold PyDict.keys in *; rewrite map_app in Hnd; simpl in Hnd.
      apply NoDup_remove_2 in Hnd.
      intros Hin; apply Hnd, in_or_app; now left. }
    destruct (import_row_importable language prog Hitem Hnew)
      as (dct & Hrow & Hwords).
    simpl; rewrite Hrow.
    destruct (IH {| imported := dct;
                    count_added := count_added prog + 1;
                    count_skipped := count_skipped prog |})
      as (dct' & Hloop & Hwords'); [| exact Hrest |].
    + simpl; rewrite Hwords, <- app_assoc; exact Hnd.
    + exists dct'; simpl in *; rewrite Hloop, Hwords', Hwords.
      rewrite <- app_assoc, <- Nat.add_assoc; auto.
Qed.

(** C8, as amended.  Take a bucket, with one entry per word, in which
    every word is non-empty and in normal form, every definition and part
    of speech is non-empty, every field is trimmed, and no cell has a
    carriage return and none is longer than the 131072 characters the CSV
    reader takes.  If its export to a file succeeds, then importing that
    file into a language whose bucket is missing or empty reports every row
    added and none skipped, and leaves in that language the same words with
    the same definition, part of speech and example, in the same order. *)
Theorem export_then_import (source target : pystr)
        (csv_path : option pystr) (s : state) (b : bucket) :
  PyDict.get (strip (lower E source)) (dictionary s) = Some b ->
  NoDup (PyDict.keys b) ->
  Forall (importable E) b ->
  Forall (fun item => forallb within_limit (export_row item) = true) b ->
  words_of (lower E target) (dictionary s) = [] ->
  let exported := export_dictionary_to_csv E source csv_path s in
  fst exported = true ->
  let r :=
    import_dictionary_from_csv E (export_target csv_path s) target
      (snd exported) in
  fst r = (true, MsgImported (List.length b) 0)
  /\ words_of (lower E target) (dictionary (snd r)) = b.
Proof.
  intros Hb Hnd Hall Hfit Hempty; cbv zeta.
  unfold export_dictionary_to_csv.
  generalize (export_target csv_path s); intros path.
  simpl dictionary; simpl disk; rewrite Hb.
  destruct (open_csv_for_writing_ok E path); [|discriminate].
  destruct (csv_write_error E path); [discriminate|].
  simpl fst; intros Hcode; simpl snd.
  rewrite (rows_written_all _ Hcode), as_read_whole.
  2:{ change (forallb within_limit fieldnames
              && forallb (forallb within_limit) (map export_row b) = true).
      apply andb_true_iff; split; [reflexivity|].
      clear - Hfit; induction Hfit as [|item b Hitem _ IH]; [reflexivity|].
      change (forallb within_limit (export_row item)
              && forallb (forallb within_limit) (map export_row b) = true).
      now rewrite Hitem, IH. }
  unfold import_dictionary_from_csv; simpl disk; simpl csv_files.
  rewrite get_setitem_same, rows_read_exported; simpl dictionary.
  destruct (@import_rows_importable target b
              {| imported := dictionary s; count_added := 0;
                 count_skipped := 0 |}) as (dct & Hloop & Hwords).
  { simpl; now rewrite Hempty. }
  { exact Hall. }
  rewrite Hloop; simpl unreadable_tail; cbv iota beta.
  simpl fst; split; [reflexivity|].
  simpl snd.
  match goal with
  | |- context [export_dictionary_to_csv E target ?q ?t] =>
      destruct (export_memory E target q t) as (-> & _ & _)
  end.
  match goal with
  | |- context [save_data E ?t] =>
      destruct (save_data_memory E t) as (-> & _ & _)
  end.
  simpl in *; now rewrite Hwords, Hempty.
Qed.

End RoundTrip.

(** C8, refuted as stated.  The English bucket holds the word " apple",
    with a non-empty definition and part of speech.  Its export succeeds;
    the import of the exported file into the empty language "pt" adds one
    row, and the word it stores is "apple": the words differ. *)
Lemma export_then_import_counterexample :
  let s := with_untrimmed_word in
  let exported := export_dictionary_to_csv calm (py "en") (Some mirror) s in
  let r := import_dictionary_from_csv calm mirror (py "pt") (snd exported) in
  words_of (py "en") (dictionary s) = [(py " apple", apple)]
  /\ words_of (py "pt") (dictionary s) = []
  /\ fst exported = true
  /\ fst r = (true, MsgImported 1 0)
  /\ words_of (py "pt") (dictionary (snd r)) = [(py "apple", apple)]
  /\ list_words calm (py "en") (snd r) = Some [py " apple"]
  /\ list_words calm (py "pt") (snd r) = Some [py "apple"].
Proof. repeat split; reflexivity. Qed.

Lemma export_then_import_witness :
  words_of (py "pt")
    (dictionary
       (snd (import_dictionary_from_csv calm mirror (py "pt")
               (snd (export_dictionary_to_csv calm (py "en") (Some mirror)
                       with_apple)))))
  = [(py "apple", apple)].
Proof.
  apply (@export_then_import calm (py "en") (py "pt") (Some mirror)
           with_apple [(py "apple", apple)]).
  - reflexivity.
  - repeat constructor; simpl; tauto.
  - repeat constructor; try discriminate; reflexivity.
  - repeat constructor.
  - reflexivity.
  - reflexivity.
Defined.

(** What the amended C8 leaves out: the import opens the file without
    [newline=''], so a carriage return inside a cell is read back as a line
    feed.  The definition "a", CR, "b" comes back as "a", LF, "b". *)
Lemma carriage_return_read_as_line_feed :
  let exported :=
    export_dictionary_to_csv calm (py "en") (Some mirror)
      with_carriage_return in
  let r := import_dictionary_from_csv calm mirror (py "pt") (snd exported) in
  map (fun item => definition (snd item))
      (words_of (py "en") (dictionary (snd r))) = [[97; 13; 98]%N]
  /\ map (fun item => definition (snd item))
         (words_of (py "pt") (dictionary (snd r))) = [[97; 10; 98]%N].
Proof. split; reflexivity. Qed.

(** What the condition on the length is for.  A definition over the
    limit of the reader is written by the export, which succeeds; the import
    of the file then takes in the rows before that one and fails on it. *)
Lemma over_limit_field (long : pystr) :
  within_limit long = false ->
  forallb (fun c => negb (is_surrogate c)) long = true ->
  let exported :=
    export_dictionary_to_csv calm (py "en") (Some mirror)
      (with_essay long) in
  let r := import_dictionary_from_csv calm mirror (py "pt") (snd exported) in
  fst exported = true
  /\ fst r = (false,
              MsgImportError
                (ReadError "field larger than field limit (131072)"%string))
  /\ PyDict.keys (words_of (py "pt") (dictionary (snd r))) = [py "apple"].
Proof.
  intros Hlimit Hcode; cbv zeta.
  unfold export_dictionary_to_csv, with_essay.
  cbn -[within_limit is_surrogate forallb as_read rows_written
        import_dictionary_from_csv].
  match goal with
  | |- forallb encodable ?rows = true /\ _ =>
      assert (Hall : forallb encodable rows = true)
  end.
  { unfold encodable, export_row.
    cbn [forallb fst snd definition part_of_speech example].
    rewrite Hcode; reflexivity. }
  rewrite (rows_written_all _ Hall).
  match goal with
  | |- context [as_read (fieldnames :: ?first :: ?essay :: ?rest)] =>
      assert (Hessay : forallb within_limit essay = false);
      [|change (as_read (fieldnames :: first :: essay :: rest))
          with (as_read ([fieldnames; first] ++ essay :: rest));
        rewrite (as_read_cut [fieldnames; first] rest essay eq_refl Hessay)]
  end.
  { unfold export_row.
    cbn [forallb fst snd definition part_of_speech example].
    now rewrite Hlimit, andb_false_r. }
  split; [exact Hall|].
  split; reflexivity.
Qed.

Lemma forallb_repeat (A : Type) (f : A -> bool) (c : A) (n : nat) :
  f c = true -> forallb f (repeat c n) = true.
Proof.
  intros Hc; induction n as [|n IH]; simpl; [reflexivity|].
  now rewrite Hc, IH.
Qed.

(** The same at a definition of 131073 letters. *)
Lemma long_field_not_read_back :
  let exported :=
    export_dictionary_to_csv calm (py "en") (Some mirror)
      (with_essay long_definition) in
  let r := import_dictionary_from_csv calm mirror (py "pt") (snd exported) in
  fst exported = true
  /\ fst r = (false,
              MsgImportError
                (ReadError "field larger than field limit (131072)"%string))
  /\ PyDict.keys (words_of (py "pt") (dictionary (snd r))) = [py "apple"].
Proof.
  apply over_limit_field; unfold long_definition.
  - unfold within_limit.
    rewrite universal_newlines_id by (now apply forallb_repeat).
    rewrite repeat_length, Nat2N.inj_add, Nat2N.inj_pow.
    reflexivity.
  - now apply forallb_repeat.
Qed.

(** * Further properties *)

(** ** Trimming *)

Section TrimFacts.

(** A string that is empty or opens with a code point that is not white
    space is left alone by [lstrip]. *)
Lemma lstrip_fixed (s : pystr) :
  (s = [] \/ exists c r, s = c :: r /\ isspace c = false) -> lstrip s = s.
Proof.
  intros [-> | (c & r & -> & Hc)]; simpl; [reflexivity|now rewrite Hc].
Qed.

Lemma lstrip_idempotent (s : pystr) : lstrip (lstrip s) = lstrip s.
Proof.
  apply lstrip_fixed.
  destruct (lstrip_head s) as [H | (c & r & H & Hc)]; rewrite H; eauto.
Qed.

(** [lstrip] takes a run of white space off the front. *)
Lemma lstrip_split (s : pystr) :
  exists sp, s = sp ++ lstrip s /\ blank sp = true.
Proof.
  induction s as [|c s (sp & Hs & Hb)]; [exists []; auto|].
  simpl; destruct (isspace c) eqn:Hc.
  - exists (c :: sp); simpl; rewrite Hc, Hb; split; [now f_equal|reflexivity].
  - exists []; auto.
Qed.

(** [rstrip] takes a run of white space off the back. *)
Lemma rstrip_split (s : pystr) :
  exists sp, s = rstrip s ++ sp /\ blank sp = true.
Proof.
  unfold rstrip.
  destruct (lstrip_split (rev s)) as (sp & Hs & Hb).
  exists (rev sp); split; [|now rewrite blank_rev].
  rewrite <- rev_app_distr, <- Hs; symmetry; apply rev_involutive.
Qed.

Lemma rstrip_idempotent (s : pystr) : rstrip (rstrip s) = rstrip s.
Proof. unfold rstrip; now rewrite rev_involutive, lstrip_idempotent. Qed.

(** Taking white space off the back leaves the front as it was. *)
Lemma lstrip_rstrip_fixed (s : pystr) :
  lstrip s = s -> lstrip (rstrip s) = rstrip s.
Proof.
  intros Hfix; apply lstrip_fixed.
  destruct (rstrip_split s) as (sp & Hs & Hb).
  destruct (rstrip s) as [|c r] eqn:Hr; [now left|right].
  exists c, r; split; [reflexivity|].
  destruct (lstrip_head s) as [Hn | (c' & r' & Hh & Hc)].
  - rewrite Hfix in Hn; rewrite Hn in Hs; discriminate.
  - rewrite Hfix in Hh; rewrite Hh in Hs; simpl in Hs.
    now injection Hs as -> _.
Qed.

Theorem strip_idempotent (s : pystr) : strip (strip s) = strip s.
Proof.
  unfold strip.
  rewrite (lstrip_rstrip_fixed (lstrip_idempotent s)).
  apply rstrip_idempotent.
Qed.

(** White space at the back makes no word. *)
Lemma split_from_blank_tail (u sp cur : pystr) :
  blank sp = true -> split_from cur (u ++ sp) = split_from cur u.
Proof.
  intros Hb; revert cur; induction u as [|c u IH]; intros cur; simpl.
  - revert cur; induction sp as [|c sp IH]; intros cur; [reflexivity|].
    simpl in Hb; apply andb_true_iff in Hb as [Hc Hs].
    simpl; rewrite Hc, (IH Hs []); destruct cur; reflexivity.
  - destruct (isspace c); [destruct cur|]; now rewrite ?IH.
Qed.

Lemma split_lstrip (s : pystr) : split (lstrip s) = split s.
Proof.
  unfold split; induction s as [|c s IH]; simpl; [reflexivity|].
  destruct (isspace c) eqn:Hc; [exact IH|].
  simpl; now rewrite Hc.
Qed.

Lemma split_strip (s : pystr) : split (strip s) = split s.
Proof.
  unfold strip.
  destruct (rstrip_split (lstrip s)) as (sp & Hs & Hb).
  rewrite <- (split_lstrip s); rewrite Hs at 2.
  unfold split; now rewrite split_from_blank_tail.
Qed.

End TrimFacts.

(** ** The confidence scorer, further *)

Section ScoreFacts.

Lemma float_ltb_leb (x y : float) :
  PrimFloat.ltb x y = true -> PrimFloat.leb x y = true.
Proof.
  rewrite FloatAxioms.ltb_spec, FloatAxioms.leb_spec; unfold SFltb, SFleb.
  destruct (SFcompare _ _) as [[]|]; congruence.
Qed.

Lemma SFcompare_refl (f : SpecFloat.spec_float) :
  SFcompare f f = None \/ SFcompare f f = Some Eq.
Proof.
  destruct f as [s|s| |s m e]; simpl; auto; right.
  - destruct s; reflexivity.
  - rewrite Z.compare_refl.
    change (Pos.compare_cont Eq m m) with (Pos.compare m m).
    rewrite Pos.compare_refl; destruct s; reflexivity.
Qed.

(** A float that something is below is below itself: it is a number. *)
Lemma float_leb_refl (x y : float) :
  PrimFloat.leb x y = true -> PrimFloat.leb y y = true.
Proof.
  rewrite !FloatAxioms.leb_spec; unfold SFleb.
  destruct (SFcompare_refl (Prim2SF y)) as [H | H]; rewrite H; auto.
  destruct (Prim2SF x), (Prim2SF y); simpl in *; congruence.
Qed.

Lemma py_min_at_most (a b : float) :
  PrimFloat.leb a a = true -> PrimFloat.leb (py_min a b) a = true.
Proof.
  intros Ha; unfold py_min.
  destruct (PrimFloat.ltb b a) eqn:Hb; [now apply float_ltb_leb|exact Ha].
Qed.

(** X1.  Whatever the two arguments are ([None], a string, another
    object), the score is at most [max_confidence], provided
    [max_confidence] is not below zero. *)
Theorem calculate_confidence_at_most_max (self : t) (d e : pyarg) :
  PrimFloat.leb 0 (max_confidence self) = true ->
  PrimFloat.leb (calculate_confidence self d e) (max_confidence self) = true.
Proof.
  intros Hmax; unfold calculate_confidence.
  pose proof (float_leb_refl Hmax) as Hrefl.
  destruct (truthy (coerce d) && truthy (coerce e));
    [now apply py_min_at_most|].
  destruct (truthy (coerce d) || truthy (coerce e));
    [now apply py_min_at_most|exact Hmax].
Qed.

Lemma calculate_confidence_at_most_max_witness :
  PrimFloat.leb
    (calculate_confidence default PyNone (PyOther (py "12345")))
    (max_confidence default) = true.
Proof.
  apply calculate_confidence_at_most_max; reflexivity.
Defined.

(** X2.  Trimming the two strings before the call gives the score of the
    rule that chooses the branch by what is left after trimming: trimmed
    input is where the code and that rule agree. *)
Theorem calculate_confidence_of_trimmed (self : t) (d e : pystr) :
  calculate_confidence self (PyStr (strip d)) (PyStr (strip e))
  = calculate_confidence_spec self d e.
Proof.
  unfold calculate_confidence, calculate_confidence_spec, word_count;
    simpl coerce.
  rewrite !split_strip.
  destruct (truthy (strip d)), (truthy (strip e)); reflexivity.
Qed.

End ScoreFacts.

(** ** Adding, further *)

Section StoreFacts.

Variable E : env.

Lemma get_definition_words (w l : pystr) (s : state) :
  get_definition E w l s
  = PyDict.get (normal_form E w) (words_of l (dictionary s)).
Proof.
  unfold get_definition, words_of, normal_form.
  case_get l (dictionary s); reflexivity.
Qed.

Lemma has_word_words (w l : pystr) (s : state) :
  has_word w l s = PyDict.contains w (words_of l (dictionary s)).
Proof.
  unfold has_word, words_of.
  case_get l (dictionary s); reflexivity.
Qed.

Lemma words_of_setitem_other (l l' : pystr) (b : bucket) (d : lexicon) :
  l' <> l -> words_of l' (PyDict.setitem l b d) = words_of l' d.
Proof. intros H; unfold words_of; now rewrite get_setitem_other. Qed.

Lemma words_of_ensure_language (l l' : pystr) (s : state) :
  words_of l' (dictionary (ensure_language l s)) = words_of l' (dictionary s).
Proof.
  destruct (ensure_language_cases l s) as [-> | [Hn ->]]; [reflexivity|].
  unfold words_of; simpl; rewrite get_app_last.
  case_get l' (dictionary s); [reflexivity|].
  destruct (eqb l' l); reflexivity.
Qed.

Lemma store_word_dictionary (w l : pystr) (e : entry) (s : state) :
  dictionary (store_word E w l e s)
  = PyDict.setitem l
      (PyDict.setitem w (trim_entry e) (words_of l (dictionary s)))
      (dictionary s).
Proof.
  unfold store_word.
  match goal with
  | |- context [export_dictionary_to_csv E l ?q ?t] =>
      destruct (export_memory E l q t) as (-> & _ & _)
  end.
  match goal with
  | |- context [save_data E ?t] =>
      destruct (save_data_memory E t) as (-> & _ & _)
  end.
  reflexivity.
Qed.

Lemma store_word_calls (w l : pystr) (e : entry) (s : state) :
  calls (store_word E w l e s)
  = calls s ++ [Saved; Exported l (export_csv_path s)].
Proof.
  unfold store_word.
  rewrite export_calls_mirror, save_data_calls.
  match goal with
  | |- context [save_data E ?t] =>
      destruct (save_data_memory E t) as (_ & _ & ->)
  end.
  simpl; now rewrite <- app_assoc.
Qed.

(** Looking up after storing: the stored word under its language gives the
    trimmed entry, everything else is as before. *)
Lemma get_definition_store_word (w l w' l' : pystr) (e : entry) (s : state) :
  get_definition E w' l' (store_word E w l e (ensure_language l s))
  = if eqb l' l && eqb (normal_form E w') w then Some (trim_entry e)
    else get_definition E w' l' s.
Proof.
  rewrite !get_definition_words, store_word_dictionary.
  rewrite (words_of_ensure_language l l s).
  destruct (eqb l' l) eqn:Hl; simpl.
  - apply eqb_eq in Hl; subst l'.
    rewrite words_of_setitem, get_setitem.
    destruct (eqb (normal_form E w') w); reflexivity.
  - apply eqb_neq in Hl.
    now rewrite words_of_setitem_other, words_of_ensure_language.
Qed.

(** X3.  A manual add of a new word with three non-empty fields succeeds,
    whatever becomes of the save and the export it triggers.  Afterwards
    every spelling of the word finds the entry with its fields trimmed, every
    other lookup is as before, and [save_data] and the export were each
    called once. *)
Theorem manual_add_word_stores (word language d p x : pystr) (s : state) :
  normal_form E word <> [] ->
  has_word (normal_form E word) language s = false ->
  d <> [] -> p <> [] -> x <> [] ->
  let r := manual_add_word E word language d p x s in
  fst r = (true, MsgAdded)
  /\ (forall w,
        normal_form E w = normal_form E word ->
        get_definition E w language (snd r)
        = Some {| definition := strip d; part_of_speech := strip p;
                  example := strip x |})
  /\ (forall w l,
        l <> language \/ normal_form E w <> normal_form E word ->
        get_definition E w l (snd r) = get_definition E w l s)
  /\ calls (snd r)
     = calls s ++ [Saved; Exported language (export_csv_path s)].
Proof.
  unfold normal_form; intros Hw Hnew Hd Hp Hx; cbv zeta.
  unfold manual_add_word.
  rewrite (proj2 (truthy_true _) Hw), has_word_ensure_language, Hnew.
  rewrite (proj2 (truthy_true _) Hd), (proj2 (truthy_true _) Hp),
    (proj2 (truthy_true _) Hx); simpl.
  split; [reflexivity|].
  split; [|split].
  - intros w Hsame; rewrite get_definition_store_word.
    unfold normal_form; now rewrite Hsame, !eqb_refl.
  - intros w l Hother; rewrite get_definition_store_word.
    unfold normal_form.
    destruct Hother as [Hl | Hn].
    + now rewrite (proj2 (eqb_neq _ _) Hl).
    + now rewrite (proj2 (eqb_neq _ _) Hn), andb_false_r.
  - rewrite store_word_calls.
    destruct (ensure_language_cases language s) as [-> | [_ ->]];
      reflexivity.
Qed.

(** X4.  With the three fields supplied and non-empty, [add_word] is
    [manual_add_word]: same result, same state; in particular the fetcher
    is not consulted. *)
Theorem add_word_with_fields (word language d p x : pystr) (s : state) :
  d <> [] -> p <> [] -> x <> [] ->
  add_word E word language (Some d) (Some p) (Some x) s
  = manual_add_word E word language d p x s.
Proof.
  intros Hd Hp Hx; unfold add_word, manual_add_word.
  rewrite (proj2 (truthy_true _) Hd), (proj2 (truthy_true _) Hp),
    (proj2 (truthy_true _) Hx); reflexivity.
Qed.

(** X5.  When the fields are not all supplied and the fetch returns a
    record, [add_word] of a new word succeeds and stores the fetched record,
    trimmed: what the caller did supply is dropped.  The fetcher was
    consulted once, then [save_data] and the export were called. *)
Theorem add_word_fetched (word language : pystr) (d p x : option pystr)
        (fetched : entry) (s : state) :
  given d && given p && given x = false ->
  normal_form E word <> [] ->
  has_word (normal_form E word) language s = false ->
  fetch_definition_from_api E (normal_form E word) language = Some fetched ->
  let r := add_word E word language d p x s in
  fst r = (true, MsgAdded)
  /\ get_definition E word language (snd r) = Some (trim_entry fetched)
  /\ calls (snd r)
     = calls s ++ [Fetched (normal_form E word) language; Saved;
                   Exported language (export_csv_path s)].
Proof.
  unfold normal_form; intros Hg Hw Hnew Hf; cbv zeta; unfold add_word.
  rewrite (proj2 (truthy_true _) Hw); simpl negb; cbv iota.
  rewrite has_word_ensure_language, Hnew, Hf.
  set (w := strip (lower E word)) in *.
  assert (Hr : forall s0 : state,
             match d, p, x with
             | Some d0, Some p0, Some x0 =>
                 if truthy d0 && truthy p0 && truthy x0
                 then (true, MsgAdded,
                       store_word E w language
                         {| definition := d0; part_of_speech := p0;
                            example := x0 |} s0)
                 else (true, MsgAdded,
                       store_word E w language fetched
                         (record_call (Fetched w language) s0))
             | _, _, _ =>
                 (true, MsgAdded,
                  store_word E w language fetched
                    (record_call (Fetched w language) s0))
             end
             = (true, MsgAdded,
                store_word E w language fetched
                  (record_call (Fetched w language) s0))).
  { intros s0; destruct d as [d0|], p as [p0|], x as [x0|]; try reflexivity.
    simpl in Hg; now rewrite Hg. }
  rewrite Hr; simpl fst; simpl snd.
  split; [reflexivity|].
  split.
  - rewrite get_definition_words, store_word_dictionary.
    rewrite words_of_setitem, get_setitem.
    unfold normal_form; fold w; now rewrite eqb_refl.
  - rewrite store_word_calls; simpl.
    destruct (ensure_language_cases language s) as [-> | [_ ->]];
      simpl; now rewrite <- app_assoc.
Qed.

End StoreFacts.

Lemma manual_add_word_stores_witness :
  get_definition calm (py "BOOK") (py "en")
    (snd (manual_add_word calm (py "book") (py "en") (py "A written work. ")
            (py "noun") (py "She read a book.") fresh))
  = Some {| definition := strip (py "A written work. ");
            part_of_speech := strip (py "noun");
            example := strip (py "She read a book.") |}.
Proof.
  apply (@manual_add_word_stores calm (py "book") (py "en")
           (py "A written work. ") (py "noun") (py "She read a book.")
           fresh);
    try discriminate; reflexivity.
Defined.

Lemma add_word_with_fields_witness :
  add_word calm (py "book") (py "en") (Some (py "A written work."))
    (Some (py "noun")) (Some (py "She read a book.")) fresh
  = manual_add_word calm (py "book") (py "en") (py "A written work.")
      (py "noun") (py "She read a book.") fresh.
Proof. apply add_word_with_fields; discriminate. Defined.

Lemma add_word_fetched_witness :
  get_definition answering (py "Apple") (py "en")
    (snd (add_word answering (py "Apple") (py "en") (Some (py "mine")) None
            None fresh))
  = Some (trim_entry apple).
Proof.
  apply (@add_word_fetched answering (py "Apple") (py "en")
           (Some (py "mine")) None None apple fresh);
    try discriminate; reflexivity.
Defined.

(** ** What every stored word looks like *)

Section TidyFacts.

Variable E : env.

Lemma in_setitem (V : Type) (d : PyDict.pydict V) (k k0 : pystr) (v v0 : V) :
  In (k, v) (PyDict.setitem k0 v0 d) -> In (k, v) d \/ (k = k0 /\ v = v0).
Proof.
  induction d as [|[k' v'] d IH]; simpl.
  - intros [H|[]]; injection H as <- <-; auto.
  - destruct (eqb k0 k') eqn:Hk; simpl.
    + apply eqb_eq in Hk; subst k'.
      intros [H|H]; [injection H as <- <-; auto|auto].
    + intros [H|H]; [auto|destruct (IH H); auto].
Qed.

Lemma in_delitem (V : Type) (d : PyDict.pydict V) (k0 : pystr)
      (kv : pystr * V) :
  In kv (PyDict.delitem k0 d) -> In kv d.
Proof.
  induction d as [|[k' v'] d IH]; simpl; [auto|].
  destruct (eqb k0 k'); simpl; [auto|intros [H|H]; auto].
Qed.

Lemma get_in (V : Type) (d : PyDict.pydict V) (k : pystr) (v : V) :
  PyDict.get k d = Some v -> exists k', In (k', v) d.
Proof.
  induction d as [|[k0 v0] d IH]; simpl; [discriminate|].
  destruct (eqb k k0).
  - intros H; injection H as <-; eauto.
  - intros H; destruct (IH H) as (k' & Hin); eauto.
Qed.

Lemma in_words_of (l : pystr) (d : lexicon) (kv : pystr * entry) :
  In kv (words_of l d) -> exists l', In (l', words_of l d) d.
Proof.
  unfold words_of.
  destruct (PyDict.get l d) as [b|] eqn:Hget; [|intros []].
  intros _; exact (get_in _ _ Hget).
Qed.

Lemma tidy_setdefault (l : pystr) (d : lexicon) :
  tidy d -> tidy (PyDict.setdefault l [] d).
Proof.
  unfold PyDict.setdefault; destruct (PyDict.contains _ _); [auto|].
  intros Ht l' b w e Hb Hw.
  apply in_setitem in Hb as [Hb | [_ ->]]; [eauto|destruct Hw].
Qed.

(** Putting a tidy word in a bucket keeps the dictionary tidy. *)
Lemma tidy_store (l w : pystr) (e : entry) (d : lexicon) :
  tidy d -> w <> [] -> strip w = w -> trimmed_entry e ->
  tidy (PyDict.setitem l (PyDict.setitem w e (words_of l d)) d).
Proof.
  intros Ht Hw Hs He l' b w' e' Hb Hin.
  apply in_setitem in Hb as [Hb | [_ ->]]; [eauto|].
  apply in_setitem in Hin as [Hin | [-> ->]]; [|auto].
  destruct (in_words_of _ _ _ Hin) as (lang & Hlang); eauto.
Qed.

Lemma tidy_ensure_language (l : pystr) (s : state) :
  tidy (dictionary s) -> tidy (dictionary (ensure_language l s)).
Proof.
  intros Ht; destruct (ensure_language_cases l s) as [-> | [_ ->]]; [auto|].
  simpl; intros l' b w e Hb Hw.
  apply in_app_or in Hb as [Hb | [Hb | []]]; [eauto|].
  injection Hb as <- <-; destruct Hw.
Qed.

Lemma trimmed_trim_entry (e : entry) : trimmed_entry (trim_entry e).
Proof. unfold trimmed_entry; simpl; now rewrite !strip_idempotent. Qed.

Lemma tidy_store_word (w l : pystr) (e : entry) (s : state) :
  tidy (dictionary s) -> w <> [] -> strip w = w ->
  tidy (dictionary (store_word E w l e s)).
Proof.
  intros Ht Hw Hs; rewrite store_word_dictionary.
  apply tidy_store; auto using trimmed_trim_entry.
Qed.

Lemma tidy_import_row (language : pystr) (row : reader_row)
      (p p' : progress) :
  tidy (imported p) -> import_row E language row p = inr p' ->
  tidy (imported p').
Proof.
  intros Ht; unfold import_row, bind, call_method.
  destruct (row_get (py "word") row) as [w|]; [|discriminate].
  destruct (row_get (py "definition") row) as [d|]; [|discriminate].
  destruct (row_get (py "part_of_speech") row) as [q|]; [|discriminate].
  destruct (row_get (py "example") row) as [x|]; [|discriminate].
  destruct (truthy (strip (lower E w))) eqn:Hw; simpl;
    [|intros H; injection H as <-; exact Ht].
  destruct (negb (truthy (strip d)) || negb (truthy (strip q)));
    [intros H; injection H as <-; exact Ht|].
  fold (words_of (lower E language)
          (PyDict.setdefault (lower E language) [] (imported p))).
  destruct (negb _); intros H; injection H as <-; simpl;
    [|now apply tidy_setdefault].
  apply tidy_store.
  - now apply tidy_setdefault.
  - now apply truthy_true.
  - apply strip_idempotent.
  - unfold trimmed_entry; simpl; now rewrite !strip_idempotent.
Qed.

Lemma tidy_import_rows (language : pystr) (rows : list reader_row) :
  forall p, tidy (imported p) ->
            tidy (imported (fst (import_rows E language rows p))).
Proof.
  induction rows as [|row rows IH]; intros p Ht; simpl; [exact Ht|].
  destruct (import_row E language row p) as [e|p'] eqn:Hrow; [exact Ht|].
  apply IH; eapply tidy_import_row; eauto.
Qed.

(** X6.  The four operations that change the dictionary keep it tidy: when
    every stored word is non-empty and trimmed and every stored field is
    trimmed before the call, the same holds after it, whether the call
    succeeds or fails. *)
Theorem tidy_kept (s : state) :
  tidy (dictionary s) ->
  (forall word language d p x,
      tidy (dictionary (snd (add_word E word language d p x s))))
  /\ (forall word language d p x,
         tidy (dictionary (snd (manual_add_word E word language d p x s))))
  /\ (forall word language,
         tidy (dictionary (snd (remove_word E word language s))))
  /\ (forall csv_path language,
         tidy (dictionary
                 (snd (import_dictionary_from_csv E csv_path language s)))).
Proof.
  intros Ht; split; [|split; [|split]].
  - intros word language d p x; unfold add_word.
    destruct (truthy (strip (lower E word))) eqn:Hw; simpl; [|exact Ht].
    apply truthy_true in Hw.
    pose proof (tidy_ensure_language language s Ht) as Ht'.
    destruct (has_word _ _ _); simpl; [exact Ht'|].
    assert (Hstore : forall e t,
               tidy (dictionary t) ->
               tidy (dictionary
                       (store_word E (strip (lower E word)) language e t)))
      by (intros; apply tidy_store_word; auto using strip_idempotent).
    destruct d as [d|], p as [p|], x as [x|];
      try (destruct (truthy d && truthy p && truthy x));
      try (destruct (fetch_definition_from_api E _ _));
      simpl; auto.
  - intros word language d p x; unfold manual_add_word.
    destruct (truthy (strip (lower E word))) eqn:Hw; simpl; [|exact Ht].
    apply truthy_true in Hw.
    pose proof (tidy_ensure_language language s Ht) as Ht'.
    destruct (has_word _ _ _); simpl; [exact Ht'|].
    destruct (negb _); simpl; [exact Ht'|].
    apply tidy_store_word; auto using strip_idempotent.
  - intros word language; unfold remove_word.
    case_get language (dictionary s); [|exact Ht].
    destruct (PyDict.contains _ _); [|exact Ht]; simpl.
    match goal with
    | |- context [export_dictionary_to_csv E language ?q ?t] =>
        destruct (export_memory E language q t) as (-> & _ & _)
    end.
    match goal with
    | |- context [save_data E ?t] =>
        destruct (save_data_memory E t) as (-> & _ & _)
    end.
    simpl; intros l' b' w e Hb Hw.
    apply in_setitem in Hb as [Hb | [_ ->]]; [eauto|].
    apply in_delitem in Hw.
    destruct (get_in _ _ Hget) as (lang & Hlang); eauto.
  - intros csv_path language; unfold import_dictionary_from_csv.
    destruct (PyDict.get csv_path _) as [f|]; [|exact Ht].
    pose proof (tidy_import_rows language (rows_read f)
                  {| imported := dictionary s; count_added := 0;
                     count_skipped := 0 |} Ht) as Hloop.
    destruct (import_rows _ _ _ _) as [p raised]; simpl in Hloop.
    destruct raised; [exact Hloop|].
    destruct (unreadable_tail f); [exact Hloop|]; simpl.
    match goal with
    | |- context [export_dictionary_to_csv E language ?q ?t] =>
        destruct (export_memory E language q t) as (-> & _ & _)
    end.
    match goal with
    | |- context [save_data E ?t] =>
        destruct (save_data_memory E t) as (-> & _ & _)
    end.
    exact Hloop.
Qed.

End TidyFacts.

Lemma tidy_kept_witness :
  tidy (dictionary
          (snd (manual_add_word calm (py " Pear ") (py "en") (py " A fruit ")
                  (py "noun") (py "x") with_apple))).
Proof.
  apply (@tidy_kept calm with_apple).
  intros l b w e [H|[]] Hw; injection H as <- <-.
  destruct Hw as [H|[]]; injection H as <- <-.
  repeat split; discriminate || reflexivity.
Defined.

(** ** Removing and listing *)

Section RemoveFacts.

Variable E : env.

Lemma get_delitem_other (V : Type) (d : PyDict.pydict V) (k k' : pystr) :
  k' <> k -> PyDict.get k' (PyDict.delitem k d) = PyDict.get k' d.
Proof.
  intros Hne; induction d as [|[k0 v0] d IH]; simpl; [reflexivity|].
  destruct (eqb k k0) eqn:Hk; simpl.
  - apply eqb_eq in Hk; subst k0.
    now rewrite (proj2 (eqb_neq k' k) Hne).
  - now rewrite IH.
Qed.

(** In a dictionary with one pair per key, a deleted key is gone. *)
Lemma get_delitem_same (V : Type) (d : PyDict.pydict V) (k : pystr) :
  NoDup (PyDict.keys d) -> PyDict.get k (PyDict.delitem k d) = None.
Proof.
  induction d as [|[k0 v0] d IH]; simpl; [reflexivity|].
  intros Hnd; inversion Hnd as [|? ? Hnotin Hrest]; subst.
  destruct (eqb k k0) eqn:Hk; simpl.
  - apply eqb_eq in Hk; subst k0; now apply get_none_iff.
  - rewrite Hk; auto.
Qed.

(** X7.  [remove_word] of a word that is not stored under the language
    fails and leaves the state as it was.  Of a word that is stored it
    succeeds, whatever becomes of the save and the export; [save_data] and
    the export are each called once; no other lookup changes; and the word
    itself is no longer found. *)
Theorem remove_word_outcome (word language : pystr) (s : state) :
  NoDup (PyDict.keys (words_of language (dictionary s))) ->
  let r := remove_word E word language s in
  (has_word (normal_form E word) language s = false ->
   r = ((false, MsgWordNotFound), s))
  /\ (has_word (normal_form E word) language s = true ->
      fst r = (true, MsgRemoved)
      /\ get_definition E word language (snd r) = None
      /\ (forall w l,
            l <> language \/ normal_form E w <> normal_form E word ->
            get_definition E w l (snd r) = get_definition E w l s)
      /\ calls (snd r)
         = calls s ++ [Saved; Exported language (export_csv_path s)]).
Proof.
  intros Hnd; cbv zeta; unfold remove_word, has_word, normal_form in *.
  unfold words_of in Hnd.
  destruct (PyDict.get language (dictionary s)) as [b|] eqn:Hb;
    [|split; [reflexivity|discriminate]].
  destruct (PyDict.contains (strip (lower E word)) b) eqn:Hc;
    (split; [intros H; try discriminate; reflexivity|]);
    [|discriminate].
  intros _; simpl fst; simpl snd.
  split; [reflexivity|].
  assert (Hdict : forall t q,
             dictionary
               (snd (export_dictionary_to_csv E language q
                       (snd (save_data E t)))) = dictionary t).
  { intros t q.
    destruct (export_memory E language q (snd (save_data E t)))
      as (-> & _ & _).
    now destruct (save_data_memory E t) as (-> & _ & _). }
  split; [|split].
  - rewrite get_definition_words, Hdict; simpl.
    rewrite words_of_setitem; now apply get_delitem_same.
  - intros w l Hother.
    rewrite !get_definition_words, Hdict; simpl.
    destruct (eqb l language) eqn:Hl.
    + apply eqb_eq in Hl; subst l.
      destruct Hother as [Hl | Hn]; [congruence|].
      rewrite words_of_setitem; unfold words_of; rewrite Hb.
      now apply get_delitem_other.
    + apply eqb_neq in Hl; now rewrite words_of_setitem_other.
  - rewrite export_calls_mirror, save_data_calls.
    destruct (save_data_memory E
                (set_dictionary
                   (PyDict.setitem language
                      (PyDict.delitem (strip (lower E word)) b)
                      (dictionary s)) s)) as (_ & _ & ->).
    simpl; now rewrite <- app_assoc.
Qed.

End RemoveFacts.

Lemma remove_word_outcome_witness :
  get_definition calm (py "Apple") (py "en")
    (snd (remove_word calm (py "Apple") (py "en") with_apple)) = None.
Proof.
  apply (@remove_word_outcome calm (py "Apple") (py "en") with_apple).
  - repeat constructor; simpl; tauto.
  - reflexivity.
Defined.

Section ListFacts.

Lemma leb_total (a b : pystr) : leb a b = false -> leb b a = true.
Proof.
  revert b; induction a as [|x a IH]; intros [|y b]; simpl;
    try discriminate; try reflexivity.
  intros H; apply orb_false_iff in H as [Hlt H].
  apply N.ltb_ge in Hlt.
  destruct (N.eqb x y) eqn:Hxy; simpl in H.
  - apply N.eqb_eq in Hxy; subst y.
    rewrite N.eqb_refl, (IH b H); apply orb_true_r.
  - apply N.eqb_neq in Hxy.
    assert (Hyx : (y < x)%N) by lia.
    apply N.ltb_lt in Hyx; now rewrite Hyx.
Qed.

Lemma insert_sorted_permutation (x : pystr) (l : list pystr) :
  Permutation (x :: l) (insert_sorted x l).
Proof.
  induction l as [|y l IH]; simpl; [reflexivity|].
  destruct (leb x y); [reflexivity|].
  rewrite perm_swap; now constructor.
Qed.

Lemma insert_sorted_sorted (x : pystr) (l : list pystr) :
  Sorted (fun a b => leb a b = true) l ->
  Sorted (fun a b => leb a b = true) (insert_sorted x l).
Proof.
  induction l as [|y l IH]; intros Hs; simpl; [repeat constructor|].
  destruct (leb x y) eqn:Hxy; [constructor; auto|].
  inversion Hs as [|? ? Hl Hhd]; subst.
  constructor; [auto|].
  destruct l as [|z l]; simpl.
  - constructor; now apply leb_total.
  - destruct (leb x z) eqn:Hxz; constructor;
      [now apply leb_total|now inversion Hhd].
Qed.

Lemma sorted_permutation (l : list pystr) : Permutation l (sorted l).
Proof.
  induction l as [|x l IH]; simpl; [reflexivity|].
  rewrite <- insert_sorted_permutation; now constructor.
Qed.

Lemma sorted_sorted (l : list pystr) :
  Sorted (fun a b => leb a b = true) (sorted l).
Proof.
  induction l as [|x l IH]; simpl; [constructor|].
  now apply insert_sorted_sorted.
Qed.

(** X8.  [list_words] answers [None] exactly when the language, lower-cased
    and trimmed, has no bucket; otherwise it answers the words of that
    bucket, each once, in ascending code-point order. *)
Theorem list_words_outcome (E : env) (language : pystr) (s : state) :
  match list_words E language s with
  | None => PyDict.get (strip (lower E language)) (dictionary s) = None
  | Some words =>
      Permutation
        (PyDict.keys (words_of (strip (lower E language)) (dictionary s)))
        words
      /\ Sorted (fun a b => leb a b = true) words
      /\ PyDict.get (strip (lower E language)) (dictionary s) <> None
  end.
Proof.
  unfold list_words, words_of.
  destruct (PyDict.get (strip (lower E language)) (dictionary s));
    [|reflexivity].
  split; [apply sorted_permutation|].
  split; [apply sorted_sorted|discriminate].
Qed.

End ListFacts.

(** ** The CSV mirror *)

Section MirrorFacts.

Variable E : env.

Lemma save_data_csv_files (s : state) :
  csv_files (disk (snd (save_data E s))) = csv_files (disk s).
Proof.
  unfold save_data.
  destruct (copied _ _); [|reflexivity].
  destruct (copied _ _); [|reflexivity].
  destruct (write_dictionary E); try reflexivity.
  destruct (write_language_data E); reflexivity.
Qed.

(** The save and the export that follow every change, when the language
    has a bucket under its code as given, the code is already lower-cased
    and trimmed, the mirror can be opened and the operating system takes
    every write to it. *)
Lemma mirror_refreshed (language : pystr) (b : bucket) (s : state) :
  strip (lower E language) = language ->
  open_csv_for_writing_ok E (export_csv_path s) = true ->
  csv_write_error E (export_csv_path s) = None ->
  PyDict.get language (dictionary s) = Some b ->
  let s1 := snd (save_data E s) in
  PyDict.get (export_csv_path s)
    (csv_files
       (disk (snd (export_dictionary_to_csv E language
                     (Some (export_csv_path s1)) s1))))
  = Some (exported b).
Proof.
  intros Hnormal Hopen Hwrite Hb; cbv zeta.
  destruct (save_data_memory E s) as (Hd & _ & Hp).
  unfold export_dictionary_to_csv, export_target.
  rewrite Hp, Hnormal; simpl dictionary; rewrite Hd, Hb.
  destruct (truthy (export_csv_path s)); rewrite Hopen, Hwrite; simpl;
    apply get_setitem_same.
Qed.

(** X9.  Under a language code that is already lower-cased and trimmed,
    when the mirror file can be opened and the operating system takes every
    write to it, every successful [add_word], [manual_add_word] and
    [remove_word] leaves in the mirror what the export writes of the words
    the language then has: the header and their rows in the order of the
    dictionary, up to the first row with a surrogate, which UTF-8 does not
    encode.  So when every row of those words can be encoded and keeps
    within the limit of the reader, the mirror is the table of exactly those
    words. *)
Theorem mirror_follows (language : pystr) (s : state) :
  strip (lower E language) = language ->
  open_csv_for_writing_ok E (export_csv_path s) = true ->
  csv_write_error E (export_csv_path s) = None ->
  let in_sync (r : (bool * message) * state) :=
    fst (fst r) = true ->
    let words := words_of language (dictionary (snd r)) in
    PyDict.get (export_csv_path s) (csv_files (disk (snd r)))
    = Some (exported words)
    /\ (portable words = true ->
        PyDict.get (export_csv_path s) (csv_files (disk (snd r)))
        = Some (table words)) in
  (forall word d p x, in_sync (add_word E word language d p x s))
  /\ (forall word d p x, in_sync (manual_add_word E word language d p x s))
  /\ (forall word, in_sync (remove_word E word language s)).
Proof.
  intros Hnormal Hopen Hwrite.
  assert (Hboth : forall (f : option csv_text) (words : bucket),
             f = Some (exported words) ->
             f = Some (exported words)
             /\ (portable words = true -> f = Some (table words))).
  { intros f words ->; split; [reflexivity|].
    intros Hport; now rewrite (exported_table words Hport). }
  cbv zeta.
  assert (Hstore : forall w e t,
             export_csv_path t = export_csv_path s ->
             PyDict.get (export_csv_path s)
               (csv_files (disk (store_word E w language e t)))
             = Some (exported
                       (words_of language
                          (dictionary (store_word E w language e t))))).
  { intros w e t Hpath.
    rewrite store_word_dictionary, words_of_setitem.
    unfold store_word; rewrite <- Hpath.
    match goal with
    | |- context [save_data E ?u] =>
        apply (@mirror_refreshed language
                 (PyDict.setitem w (trim_entry e)
                    (words_of language (dictionary t))) u)
    end; simpl; try congruence.
    apply get_setitem_same. }
  assert (Hens : forall t, export_csv_path (ensure_language language t)
                           = export_csv_path t).
  { intros t; destruct (ensure_language_cases language t) as [-> | [_ ->]];
      reflexivity. }
  split; [|split].
  - intros word d p x; unfold add_word.
    destruct (negb (truthy (strip (lower E word)))); [discriminate|].
    destruct (has_word _ _ _); [discriminate|].
    destruct d as [d|], p as [p|], x as [x|];
      try (destruct (truthy d && truthy p && truthy x));
      try (destruct (fetch_definition_from_api E _ _));
      simpl; try discriminate; intros _; apply Hboth, Hstore; simpl;
      apply Hens.
  - intros word d p x; unfold manual_add_word.
    destruct (negb (truthy (strip (lower E word)))); [discriminate|].
    destruct (has_word _ _ _); [discriminate|].
    destruct (negb _); [discriminate|].
    simpl; intros _; apply Hboth, Hstore, Hens.
  - intros word; unfold remove_word.
    match goal with
    | |- context [@PyDict.get ?V language (dictionary s)] =>
        destruct (@PyDict.get V language (dictionary s)) as [b|] eqn:Hget
    end; [|discriminate].
    destruct (PyDict.contains _ _); [|discriminate].
    simpl; intros _; apply Hboth.
    match goal with
    | |- context [words_of language (dictionary ?t)] =>
        assert (Hd : dictionary t
                     = PyDict.setitem language
                         (PyDict.delitem (strip (lower E word)) b)
                         (dictionary s))
    end.
    { match goal with
      | |- context [export_dictionary_to_csv E language ?q ?t] =>
          destruct (export_memory E language q t) as (-> & _ & _)
      end.
      match goal with
      | |- context [save_data E ?t] =>
          destruct (save_data_memory E t) as (-> & _ & _)
      end.
      reflexivity. }
    rewrite Hd, words_of_setitem.
    apply (@mirror_refreshed language
             (PyDict.delitem (strip (lower E word)) b)
             (set_dictionary
                (PyDict.setitem language
                   (PyDict.delitem (strip (lower E word)) b)
                   (dictionary s)) s)); auto.
    apply get_setitem_same.
Qed.

End MirrorFacts.

Lemma mirror_follows_witness :
  PyDict.get mirror
    (csv_files (disk (snd (manual_add_word calm (py "Pear ") (py "en")
                             (py "A fruit") (py "noun") (py "A pear.")
                             with_apple))))
  = Some (table
            (words_of (py "en")
               (dictionary (snd (manual_add_word calm (py "Pear ") (py "en")
                                   (py "A fruit") (py "noun") (py "A pear.")
                                   with_apple))))).
Proof.
  apply (proj1 (proj2 (@mirror_follows calm (py "en") with_apple
                         eq_refl eq_refl eq_refl))
           (py "Pear ") (py "A fruit") (py "noun") (py "A pear."));
    reflexivity.
Defined.

(** A lone surrogate in the definition of "essay": the export opens the
    mirror, writes the header and the row of "apple", and fails on the row
    of "essay".  It returns false, and the mirror is left without "essay"
    and without "pear". *)
Lemma surrogate_breaks_export :
  let r :=
    export_dictionary_to_csv calm (py "en") None (with_essay [55296%N]) in
  PyDict.keys (words_of (py "en") (dictionary (snd r)))
  = [py "apple"; py "essay"; py "pear"]
  /\ fst r = false
  /\ PyDict.get mirror (csv_files (disk (snd r)))
     = Some {| records := [fieldnames; export_row (py "apple", apple)];
               unreadable_tail := None |}.
Proof. repeat split; reflexivity. Qed.

(** ** Importing twice, and importing a file that breaks off *)

Section ImportAgain.

Variable E : env.

Lemma import_row_complete_form (language : pystr) (row : reader_row) :
  complete row ->
  exists w d q x,
    forall p, import_row E language row p
              = inr (step_on_cells E language w d q x p).
Proof.
  intros Hrow.
  destruct (row_get_complete (py "word") Hrow) as (w & Hw).
  destruct (row_get_complete (py "definition") Hrow) as (d & Hd).
  destruct (row_get_complete (py "part_of_speech") Hrow) as (q & Hq).
  destruct (row_get_complete (py "example") Hrow) as (x & Hx).
  exists w, d, q, x; intros p.
  unfold import_row, step_on_cells, words_of; rewrite Hw, Hd, Hq, Hx; simpl.
  destruct (negb (truthy (strip (lower E w))) || negb (truthy (strip d))
            || negb (truthy (strip q))); [reflexivity|].
  destruct (negb _); reflexivity.
Qed.

Lemma setdefault_present (l : pystr) (b : bucket) (d : lexicon) :
  PyDict.get l d = Some b -> PyDict.setdefault l [] d = d.
Proof.
  intros H; unfold PyDict.setdefault, PyDict.contains.
  plain_types; now rewrite H.
Qed.

(** A word that a bucket has makes its row a settled one. *)
Lemma settled_by_word (language w d q x : pystr) (b : bucket) (e : entry)
      (dct : lexicon) :
  PyDict.get (lower E language) dct = Some b ->
  PyDict.get (strip (lower E w)) b = Some e ->
  forall a k,
    step_on_cells E language w d q x
      {| imported := dct; count_added := a; count_skipped := k |}
    = {| imported := dct; count_added := a; count_skipped := k + 1 |}.
Proof.
  intros Hb Hw a k; unfold step_on_cells; simpl.
  destruct (negb (truthy (strip (lower E w))) || negb (truthy (strip d))
            || negb (truthy (strip q))); [reflexivity|].
  rewrite (setdefault_present _ _ Hb).
  unfold words_of, PyDict.contains; plain_types; rewrite Hb, Hw.
  reflexivity.
Qed.

Lemma words_of_has (l w : pystr) (dct : lexicon) :
  PyDict.contains w (words_of l dct) = true ->
  exists b e, PyDict.get l dct = Some b /\ PyDict.get w b = Some e.
Proof.
  unfold words_of, PyDict.contains.
  destruct (PyDict.get l dct) as [b|]; [|discriminate].
  destruct (PyDict.get w b) as [e|] eqn:He; [eauto|discriminate].
Qed.

(** After a step on four cells, the row was skipped for an empty cell, or
    its word is in the bucket. *)
Lemma step_on_cells_result (language w d q x : pystr) (p : progress) :
  (negb (truthy (strip (lower E w))) || negb (truthy (strip d))
   || negb (truthy (strip q)) = true
   /\ imported (step_on_cells E language w d q x p) = imported p)
  \/ (exists b e,
         PyDict.get (lower E language)
           (imported (step_on_cells E language w d q x p)) = Some b
         /\ PyDict.get (strip (lower E w)) b = Some e).
Proof.
  unfold step_on_cells.
  destruct (negb (truthy (strip (lower E w))) || negb (truthy (strip d))
            || negb (truthy (strip q))); [left; auto|right].
  cbv zeta.
  destruct (PyDict.contains _ _) eqn:Hc; simpl negb; cbv iota; simpl.
  - now apply words_of_has.
  - do 2 eexists; split; apply get_setitem_same.
Qed.

(** After the loop has dealt with a row, the row is settled. *)
Lemma settled_after_step (language : pystr) (row : reader_row)
      (p p' : progress) :
  complete row -> import_row E language row p = inr p' ->
  settled E language row (imported p').
Proof.
  intros Hrow Hstep.
  destruct (import_row_complete_form language Hrow)
    as (w & d & q & x & Hform).
  rewrite Hform in Hstep; injection Hstep as <-.
  intros a k; rewrite Hform; f_equal.
  destruct (step_on_cells_result language w d q x p)
    as [(Hskip & ->) | (b & e & Hb & He)].
  - unfold step_on_cells; simpl; now rewrite Hskip.
  - eapply settled_by_word; eauto.
Qed.

(** A settled row stays settled while nothing stored is lost. *)
Lemma settled_kept (language : pystr) (row : reader_row) (d d' : lexicon) :
  complete row -> settled E language row d -> keeps d d' ->
  settled E language row d'.
Proof.
  intros Hrow Hs Hkeep.
  destruct (import_row_complete_form language Hrow)
    as (w & c & q & x & Hform).
  specialize (Hs 0 0); rewrite Hform in Hs; injection Hs as Hs.
  intros a k; rewrite Hform; f_equal.
  revert Hs; unfold step_on_cells; simpl.
  destruct (negb (truthy (strip (lower E w))) || negb (truthy (strip c))
            || negb (truthy (strip q))); [reflexivity|].
  destruct (PyDict.contains _ _) eqn:Hc; simpl; [|discriminate].
  intros _.
  rewrite words_of_setdefault in Hc.
  destruct (words_of_has _ _ _ Hc) as (b & e & Hb & He).
  destruct (Hkeep _ _ _ _ Hb He) as (b' & Hb' & He').
  rewrite (setdefault_present _ _ Hb').
  unfold words_of, PyDict.contains; plain_types; rewrite Hb', He'.
  reflexivity.
Qed.

Lemma all_settled_after (language : pystr) (rows : list reader_row) :
  Forall complete rows ->
  forall p p',
    import_rows E language rows p = (p', None) ->
    Forall (fun row => settled E language row (imported p')) rows.
Proof.
  induction 1 as [|row rows Hrow Hrows IH]; intros p p' Hloop; [constructor|].
  simpl in Hloop.
  destruct (import_row E language row p) as [e|p1] eqn:Hstep;
    [discriminate|].
  constructor; [|eapply IH; eauto].
  destruct (import_rows_complete E language Hrows p1)
    as (p2 & Hloop2 & _ & Hkeep).
  rewrite Hloop in Hloop2; injection Hloop2 as <-.
  eapply settled_kept; eauto using settled_after_step.
Qed.

Lemma import_rows_settled (language : pystr) (rows : list reader_row)
      (d : lexicon) :
  Forall (fun row => settled E language row d) rows ->
  forall a k,
    import_rows E language rows
      {| imported := d; count_added := a; count_skipped := k |}
    = ({| imported := d; count_added := a;
          count_skipped := k + List.length rows |}, None).
Proof.
  induction 1 as [|row rows Hrow _ IH]; intros a k; simpl.
  - now rewrite Nat.add_0_r.
  - rewrite Hrow, IH.
    replace (k + 1 + List.length rows) with (k + S (List.length rows))
      by lia.
    reflexivity.
Qed.

(** X10.  Importing a second time a file whose every non-blank record has
    a cell for each header name, not the mirror itself, adds nothing: every
    row is reported skipped and the dictionary is what the first import
    left. *)
Theorem import_twice (csv_path language : pystr) (s : state)
        (names : list pystr) (rest : list (list pystr)) :
  PyDict.get csv_path (csv_files (disk s))
  = Some {| records := names :: rest; unreadable_tail := None |} ->
  Forall (fun r => r = [] \/ List.length names <= List.length r) rest ->
  csv_path <> export_csv_path s ->
  let r1 := import_dictionary_from_csv E csv_path language s in
  let r2 := import_dictionary_from_csv E csv_path language (snd r1) in
  fst r2
  = (true,
     MsgImported 0
       (List.length (filter (fun r => negb (is_blank_record r)) rest)))
  /\ dictionary (snd r2) = dictionary (snd r1).
Proof.
  intros Hfile Hall Hpath; cbv zeta.
  destruct (@rows_read_complete names rest Hall) as (Hcomplete & Hlen).
  set (f := {| records := names :: rest; unreadable_tail := None |}) in *.
  destruct (import_rows_complete E language Hcomplete
              {| imported := dictionary s; count_added := 0;
                 count_skipped := 0 |}) as (p1 & Hloop & _ & _).
  assert (Hfirst : exists s1,
             snd (import_dictionary_from_csv E csv_path language s) = s1
             /\ dictionary s1 = imported p1
             /\ PyDict.get csv_path (csv_files (disk s1)) = Some f).
  { eexists; split; [reflexivity|].
    unfold import_dictionary_from_csv; rewrite Hfile, Hloop.
    simpl unreadable_tail; cbv iota beta; simpl snd.
    split.
    - match goal with
      | |- context [export_dictionary_to_csv E language ?q ?t] =>
          destruct (export_memory E language q t) as (-> & _ & _)
      end.
      match goal with
      | |- context [save_data E ?t] =>
          destruct (save_data_memory E t) as (-> & _ & _)
      end.
      reflexivity.
    - match goal with
      | |- context [save_data E ?t] =>
          pose proof (save_data_csv_files E t) as Hcsv;
          destruct (save_data_memory E t) as (_ & _ & Hp);
          set (s1 := snd (save_data E t)) in *
      end.
      assert (Htarget : export_target (Some (export_csv_path s1)) s1
                        = export_csv_path s).
      { unfold export_target; rewrite Hp; simpl.
        destruct (truthy (export_csv_path s)); reflexivity. }
      destruct (export_other_files E language (Some (export_csv_path s1)) s1)
        as (_ & _ & _ & _ & Hother).
      rewrite Hother by (rewrite Htarget; exact Hpath).
      rewrite Hcsv; exact Hfile. }
  destruct Hfirst as (s1 & -> & Hd1 & Hf1).
  unfold import_dictionary_from_csv; rewrite Hf1, Hd1.
  rewrite (import_rows_settled
             (all_settled_after language Hcomplete _ Hloop) 0 0).
  simpl unreadable_tail; cbv iota beta; simpl.
  split; [now rewrite Hlen|].
  match goal with
  | |- context [export_dictionary_to_csv E language ?q ?t] =>
      destruct (export_memory E language q t) as (-> & _ & _)
  end.
  match goal with
  | |- context [save_data E ?t] =>
      destruct (save_data_memory E t) as (-> & _ & _)
  end.
  simpl; congruence.
Qed.

(** What a lookup in the bucket of the language finds after the loop has
    dealt with one row: the entry of the row, when the row is usable, its
    word was not stored and it is the word looked up; otherwise what it
    found before. *)
Lemma lookup_after_row (language : pystr) (row : reader_row)
      (p p' : progress) (k : pystr) :
  complete row -> import_row E language row p = inr p' ->
  PyDict.get k (words_of (lower E language) (imported p'))
  = if usable E row
       && negb (PyDict.contains (word_of E row)
                  (words_of (lower E language) (imported p)))
       && eqb k (word_of E row)
    then Some (entry_of row)
    else PyDict.get k (words_of (lower E language) (imported p)).
Proof.
  intros Hrow Hstep.
  rewrite (import_row_cells_of E language p Hrow) in Hstep.
  injection Hstep as <-.
  unfold step_on_cells, usable, word_of, entry_of; simpl.
  destruct (truthy (strip (lower E (cell (py "word") row)))),
    (truthy (strip (cell (py "definition") row))),
    (truthy (strip (cell (py "part_of_speech") row)));
    simpl; try reflexivity.
  rewrite words_of_setdefault.
  destruct (PyDict.contains _ _); simpl.
  - now rewrite ?words_of_setdefault.
  - now rewrite words_of_setitem, get_setitem, ?words_of_setdefault.
Qed.

(** The loop takes in every usable row it gets through: the word of the row
    is stored when the loop ends, and a word that was not stored when it
    began has the entry of a usable row that carries it. *)
Lemma import_rows_taken (language : pystr) (rows : list reader_row) :
  Forall complete rows ->
  forall p p',
    import_rows E language rows p = (p', None) ->
    forall row,
      In row rows -> usable E row = true ->
      exists e,
        PyDict.get (word_of E row) (words_of (lower E language) (imported p'))
        = Some e
        /\ (PyDict.get (word_of E row)
              (words_of (lower E language) (imported p)) = None ->
            exists row',
              In row' rows /\ usable E row' = true
              /\ word_of E row' = word_of E row /\ e = entry_of row').
Proof.
  induction 1 as [|row0 rows Hrow0 Hrows IH]; intros p p' Hloop row Hin Huse;
    [contradiction|].
  simpl in Hloop.
  destruct (import_row E language row0 p) as [err|p1] eqn:Hstep;
    [discriminate|].
  pose proof (fun k => @lookup_after_row language row0 p p1 k Hrow0 Hstep)
    as Hlook.
  assert (Hlater : forall k e,
             PyDict.get k (words_of (lower E language) (imported p1))
             = Some e ->
             PyDict.get k (words_of (lower E language) (imported p'))
             = Some e).
  { clear - Hrows Hloop.
    revert p1 Hloop; induction Hrows as [|r rs Hr _ IHrs]; intros p1 Hloop k e.
    - simpl in Hloop; injection Hloop as <-; auto.
    - simpl in Hloop.
      destruct (import_row E language r p1) as [err|p2] eqn:Hstep;
        [discriminate|].
      intros Hk; apply (IHrs p2 Hloop).
      rewrite (@lookup_after_row language r p1 p2 k Hr Hstep), Hk.
      destruct (usable E r && negb _ && eqb k (word_of E r)) eqn:Hc;
        [|reflexivity].
      apply andb_true_iff in Hc as [Hc Hsame].
      apply andb_true_iff in Hc as [_ Hnew].
      apply eqb_eq in Hsame; subst k.
      unfold PyDict.contains in Hnew; plain_types; rewrite Hk in Hnew.
      discriminate. }
  destruct (PyDict.get (word_of E row)
              (words_of (lower E language) (imported p1))) as [e1|] eqn:H1.
  - (* the word is stored once the first row is dealt with *)
    exists e1; split; [now apply Hlater|].
    intros Hnone.
    rewrite Hlook, Hnone in H1.
    destruct (usable E row0) eqn:Huse0; simpl in H1; [|discriminate].
    destruct (negb _); simpl in H1; [|discriminate].
    destruct (eqb (word_of E row) (word_of E row0)) eqn:Hsame;
      [|discriminate].
    apply eqb_eq in Hsame; injection H1 as <-.
    exists row0; repeat split; auto; now left.
  - (* it is not: the row is a later one *)
    destruct Hin as [<- | Hin].
    { exfalso; rewrite Hlook, Huse, eqb_refl in H1; simpl in H1.
      unfold PyDict.contains in H1.
      destruct (PyDict.get (word_of E row0)
                  (words_of (lower E language) (imported p)));
        simpl in H1; discriminate. }
    destruct (IH p1 p' Hloop row Hin Huse) as (e & He & Hfrom).
    exists e; split; [exact He|].
    intros _; destruct (Hfrom H1) as (row' & Hin' & Huse' & Hw' & He').
    exists row'; repeat split; auto; now right.
Qed.

(** X11.  When a file breaks off with a read error after records that all
    have their cells, the import fails with that error; nothing is saved or
    exported and no file changes.  But the rows delivered before the error
    have been taken in: nothing stored before is lost, and the word of
    every usable row among them is stored in the dictionary the call leaves
    in memory, a word that is new with the entry of such a row. *)
Theorem import_broken_off (csv_path language : pystr) (s : state)
        (names : list pystr) (rest : list (list pystr)) (text : string) :
  PyDict.get csv_path (csv_files (disk s))
  = Some {| records := names :: rest; unreadable_tail := Some text |} ->
  Forall (fun r => r = [] \/ List.length names <= List.length r) rest ->
  let r := import_dictionary_from_csv E csv_path language s in
  let rows :=
    rows_read {| records := names :: rest; unreadable_tail := Some text |} in
  fst r = (false, MsgImportError (ReadError text))
  /\ calls (snd r) = calls s
  /\ disk (snd r) = disk s
  /\ keeps (dictionary s) (dictionary (snd r))
  /\ forall row,
       In row rows -> usable E row = true ->
       exists e,
         PyDict.get (word_of E row)
           (words_of (lower E language) (dictionary (snd r))) = Some e
         /\ (PyDict.get (word_of E row)
               (words_of (lower E language) (dictionary s)) = None ->
             exists row',
               In row' rows /\ usable E row' = true
               /\ word_of E row' = word_of E row /\ e = entry_of row').
Proof.
  intros Hfile Hall; cbv zeta.
  destruct (@rows_read_complete names rest Hall) as (Hcomplete & _).
  change (rows_read {| records := names :: rest; unreadable_tail := None |})
    with (rows_read {| records := names :: rest;
                       unreadable_tail := Some text |}) in Hcomplete.
  destruct (import_rows_complete E language Hcomplete
              {| imported := dictionary s; count_added := 0;
                 count_skipped := 0 |}) as (p1 & Hloop & _ & Hkeep).
  unfold import_dictionary_from_csv; rewrite Hfile, Hloop.
  simpl unreadable_tail; cbv iota beta; simpl.
  repeat split; auto.
  exact (import_rows_taken language Hcomplete _ Hloop).
Qed.

End ImportAgain.

Lemma import_twice_witness :
  fst (import_dictionary_from_csv calm (py "in.csv") (py "en")
         (snd (import_dictionary_from_csv calm (py "in.csv") (py "en")
                 (with_csv two_rows_csv fresh))))
  = (true, MsgImported 0 2).
Proof.
  apply (@import_twice calm (py "in.csv") (py "en")
           (with_csv two_rows_csv fresh) fieldnames [flower; tree]).
  - reflexivity.
  - repeat constructor; right; simpl; lia.
  - discriminate.
Defined.

(** [broken_csv] is what the reader makes of the header, the row of
    "flower" and a row with a definition over the limit. *)
Lemma broken_csv_as_read (long : pystr) :
  within_limit long = false ->
  as_read [fieldnames; flower; [py "pear"; long; py "noun"; []]]
  = broken_csv.
Proof.
  intros Hlong.
  apply (as_read_cut [fieldnames; flower] []); [reflexivity|].
  change (within_limit (py "pear")
          && (within_limit long
              && forallb within_limit [py "noun"; []]) = false).
  now rewrite Hlong, andb_false_r.
Qed.

(** The file of the witness: "flower" is in memory after the failure. *)
Lemma import_broken_off_witness :
  let r := import_dictionary_from_csv calm (py "in.csv") (py "en")
             (with_csv broken_csv fresh) in
  fst r = (false,
           MsgImportError
             (ReadError "field larger than field limit (131072)"%string))
  /\ exists e,
       PyDict.get (py "flower") (words_of (py "en") (dictionary (snd r)))
       = Some e.
Proof.
  destruct (@import_broken_off calm (py "in.csv") (py "en")
              (with_csv broken_csv fresh) fieldnames [flower]
              "field larger than field limit (131072)"%string)
    as (Hr & _ & _ & _ & Htaken).
  - reflexivity.
  - repeat constructor; right; simpl; lia.
  - split; [exact Hr|].
    destruct (Htaken (dict_row fieldnames flower)) as (e & He & _).
    + left; reflexivity.
    + reflexivity.
    + exists e; exact He.
Defined.

(** ** Saving, loading and constructing, further *)

Section PersistenceAgain.

Variable E : env.

(** X12.  What a successful [save_data] wrote is what [load_data] reads:
    loading right after it gives back the dictionary and the language data
    of the manager. *)
Theorem load_after_save (s : state) :
  fst (save_data E s) = true ->
  dictionary (load_data E (snd (save_data E s))) = dictionary s
  /\ language_data (load_data E (snd (save_data E s))) = language_data s.
Proof.
  unfold save_data, load_data, copied, validate_json, json_load, dumped.
  simpl.
  destruct (dictionary_file (disk s)) as [fd|],
    (language_data_file (disk s)) as [fl|],
    (copy_dictionary_ok E), (copy_language_data_ok E),
    (write_dictionary E), (write_language_data E),
    (read_dictionary_ok E), (read_language_data_ok E);
    simpl; try discriminate; auto.
Qed.

Lemma load_data_disk (s : state) : disk (load_data E s) = disk s.
Proof.
  unfold load_data.
  destruct (json_load _ _); [destruct (json_load _ _)|]; reflexivity.
Qed.

Lemma ensure_files_exist_files (s : state) :
  write_dictionary E = Written -> write_language_data E = Written ->
  dictionary_file (disk (ensure_files_exist E s)) <> None
  /\ language_data_file (disk (ensure_files_exist E s)) <> None.
Proof.
  intros Hd Hl; unfold ensure_files_exist; rewrite Hd, Hl; simpl.
  destruct (dictionary_file (disk s)) eqn:Hfd;
    destruct (language_data_file (disk s)) eqn:Hfl;
    simpl; rewrite ?Hfd, ?Hfl; simpl; rewrite ?Hfd, ?Hfl;
    split; discriminate.
Qed.

Lemma save_data_succeeds (s : state) :
  nothing_fails E = true ->
  dictionary_file (disk s) <> None -> language_data_file (disk s) <> None ->
  fst (save_data E s) = true.
Proof.
  unfold nothing_fails; intros Hok Hd Hl.
  repeat (apply andb_true_iff in Hok as [Hok ?]).
  unfold save_data, copied, validate_json, json_load, dumped; simpl.
  destruct (write_dictionary E); try discriminate.
  destruct (write_language_data E); try discriminate.
  destruct (copy_dictionary_ok E); try discriminate.
  destruct (copy_language_data_ok E); try discriminate.
  destruct (read_dictionary_ok E); try discriminate.
  destruct (read_language_data_ok E); try discriminate.
  destruct (dictionary_file (disk s)); [|congruence].
  destruct (language_data_file (disk s)); [|congruence].
  reflexivity.
Qed.

(** X13.  When no operation of the operating system fails, a manager just
    constructed has both backing files, whatever was on the disk before,
    and its first [save_data] succeeds. *)
Theorem save_after_init (export_path : pystr) (fs : filesystem) :
  nothing_fails E = true ->
  let s := init E export_path fs in
  dictionary_file (disk s) <> None
  /\ language_data_file (disk s) <> None
  /\ fst (save_data E s) = true.
Proof.
  intros Hok; cbv zeta; unfold init.
  assert (Hw : write_dictionary E = Written
               /\ write_language_data E = Written).
  { unfold nothing_fails in Hok.
    destruct (write_dictionary E), (write_language_data E);
      rewrite ?andb_false_r in Hok; simpl in Hok;
      rewrite ?andb_false_r in Hok; try discriminate; auto. }
  destruct Hw as (Hwd & Hwl).
  match goal with
  | |- context [load_data E ?t] =>
      destruct (ensure_files_exist_files
                  {| dictionary := []; language_data := [];
                     export_csv_path := export_path; disk := fs;
                     calls := [] |} Hwd Hwl) as (Hd & Hl);
      pose proof (load_data_disk t) as Hdisk
  end.
  rewrite <- Hdisk in Hd, Hl.
  split; [exact Hd|split; [exact Hl|]].
  now apply save_data_succeeds.
Qed.

(** The disk after a save that succeeded. *)
Lemma save_data_true_disk (s : state) :
  fst (save_data E s) = true ->
  exists fd fl,
    dictionary_file (disk s) = Some fd
    /\ language_data_file (disk s) = Some fl
    /\ disk (snd (save_data E s))
       = set_language_data_file (Some (WellFormed (language_data s)))
           (set_dictionary_file (Some (WellFormed (dictionary s)))
              (add_language_data_backup (now E) fl
                 (add_dictionary_backup (now E) fd (disk s)))).
Proof.
  unfold save_data, copied, dumped; simpl.
  destruct (dictionary_file (disk s)) as [fd|]; [|discriminate].
  destruct (copy_dictionary_ok E); [|discriminate].
  destruct (language_data_file (disk s)) as [fl|]; [|discriminate].
  destruct (copy_language_data_ok E); [|discriminate].
  destruct (write_dictionary E); try discriminate.
  destruct (write_language_data E); try discriminate.
  simpl; intros _; eauto.
Qed.

(** X14.  The backups of one second share a name.  After a successful
    [save_data], a second save at the same timestamp, of whatever the
    manager then holds, leaves under that timestamp the files the first
    save wrote: the backup of what was there before the first save is
    overwritten. *)
Theorem backup_overwritten (s s2 : state) :
  fst (save_data E s) = true ->
  disk s2 = disk (snd (save_data E s)) ->
  fst (save_data E s2) = true ->
  PyDict.get (now E) (dictionary_backups (disk (snd (save_data E s))))
  = dictionary_file (disk s)
  /\ PyDict.get (now E) (dictionary_backups (disk (snd (save_data E s2))))
     = Some (WellFormed (dictionary s))
  /\ PyDict.get (now E) (language_data_backups (disk (snd (save_data E s2))))
     = Some (WellFormed (language_data s)).
Proof.
  intros H1 Hdisk H2.
  destruct (save_data_true_disk s H1) as (fd & fl & Hfd & Hfl & Hd1).
  destruct (save_data_true_disk s2 H2) as (fd2 & fl2 & Hfd2 & Hfl2 & Hd2).
  rewrite Hdisk, Hd1 in Hfd2, Hfl2; simpl in Hfd2, Hfl2.
  injection Hfd2 as <-; injection Hfl2 as <-.
  rewrite Hd1, Hd2, Hfd; simpl.
  rewrite !get_setitem_same; auto.
Qed.

End PersistenceAgain.

Lemma load_after_save_witness :
  dictionary (load_data calm (snd (save_data calm with_apple)))
  = dictionary with_apple.
Proof. apply load_after_save; reflexivity. Defined.

Lemma save_after_init_witness :
  fst (save_data calm (init calm mirror no_files)) = true.
Proof. apply (@save_after_init calm mirror no_files); reflexivity. Defined.

Lemma backup_overwritten_witness :
  let s := set_dictionary [(py "en", [(py "apple", apple)])] fresh in
  PyDict.get (now calm) (dictionary_backups (disk (snd (save_data calm s))))
  = Some (WellFormed [])
  /\ PyDict.get (now calm)
       (dictionary_backups
          (disk (snd (save_data calm (snd (save_data calm s))))))
     = Some (WellFormed [(py "en", [(py "apple", apple)])])
  /\ PyDict.get (now calm)
       (language_data_backups
          (disk (snd (save_data calm (snd (save_data calm s))))))
     = Some (WellFormed english).
Proof.
  apply (@backup_overwritten calm
           (set_dictionary [(py "en", [(py "apple", apple)])] fresh)
           (snd (save_data calm
                   (set_dictionary [(py "en", [(py "apple", apple)])]
                      fresh))));
    reflexivity.
Defined.

(** ** The definition module *)

Section DefinitionModuleFacts.

Variable E : env.

(** X15.  [DefinitionModule.add_word] refuses a blank word, definition or
    part of speech, and a word the language already has, and then changes
    neither its dictionary nor any file.  Otherwise it answers true, even
    when the file cannot be written; every non-blank spelling with the same
    lower-cased form then finds the entry with its fields trimmed, and
    [get_example] gives the trimmed example, or, when none or a blank one
    was given, the sentence that names the word as asked. *)
Theorem definition_module_add_word
        (word d p : pystr) (x : option pystr) (s : DefinitionModule.state)
        (fs : filesystem) :
  let r := DefinitionModule.add_word E word d p x s fs in
  let stored :=
    {| definition := strip d; part_of_speech := strip p;
       example := match x with
                  | Some x' => if truthy x' then strip x' else []
                  | None => []
                  end |} in
  let language := DefinitionModule.language s in
  (strip word = [] \/ strip d = [] \/ strip p = [] -> r = (false, s, fs))
  /\ (PyDict.get (lower E word)
        (words_of language (DefinitionModule.dictionary s)) <> None ->
      fst (fst r) = false /\ snd r = fs
      /\ forall w, DefinitionModule.get_definition E w (snd (fst r))
                   = DefinitionModule.get_definition E w s)
  /\ (strip word <> [] -> strip d <> [] -> strip p <> [] ->
      PyDict.get (lower E word)
        (words_of language (DefinitionModule.dictionary s)) = None ->
      fst (fst r) = true
      /\ (forall w, strip w <> [] -> lower E w = lower E word ->
            DefinitionModule.get_definition E w (snd (fst r)) = Some stored
            /\ DefinitionModule.get_example E w (snd (fst r))
               = if truthy (strip (example stored)) then example stored
                 else DefinitionModule.example_not_found w)
      /\ dictionary_file (snd r)
         = dumped (write_dictionary E)
             (DefinitionModule.dictionary (snd (fst r)))
             (dictionary_file fs)).
Proof.
  cbv zeta; unfold DefinitionModule.add_word.
  split; [|split].
  - intros H.
    assert (Hb : truthy (strip word) && truthy (strip d) && truthy (strip p)
                 = false).
    { destruct H as [-> | [-> | ->]]; simpl;
        rewrite ?andb_false_r; reflexivity. }
    now rewrite Hb.
  - intros Hdup.
    destruct (negb _); [repeat split; auto|].
    simpl DefinitionModule.language; simpl DefinitionModule.dictionary.
    rewrite words_of_setdefault.
    unfold PyDict.contains.
    destruct (PyDict.get (lower E word) _) eqn:Hw; [|congruence].
    simpl; repeat split.
    intros w; unfold DefinitionModule.get_definition; simpl.
    now rewrite words_of_setdefault.
  - intros Hw Hd Hp Hnew.
    rewrite (proj2 (truthy_true _) Hw), (proj2 (truthy_true _) Hd),
      (proj2 (truthy_true _) Hp); simpl negb; cbv iota.
    simpl DefinitionModule.language; simpl DefinitionModule.dictionary.
    rewrite words_of_setdefault.
    unfold PyDict.contains; rewrite Hnew; simpl.
    split; [reflexivity|].
    split; [|reflexivity].
    intros w Hnb Hsame.
    assert (Hget : DefinitionModule.get_definition E w
                     (DefinitionModule.set_dictionary
                        (PyDict.setitem (DefinitionModule.language s)
                           (PyDict.setitem (lower E word)
                              {| definition := strip d;
                                 part_of_speech := strip p;
                                 example :=
                                   match x with
                                   | Some x' =>
                                       if truthy x' then strip x' else []
                                   | None => []
                                   end |}
                              (words_of (DefinitionModule.language s)
                                 (DefinitionModule.dictionary s)))
                           (PyDict.setdefault (DefinitionModule.language s)
                              [] (DefinitionModule.dictionary s)))
                        (DefinitionModule.set_dictionary
                           (PyDict.setdefault (DefinitionModule.language s)
                              [] (DefinitionModule.dictionary s)) s))
                   = Some {| definition := strip d;
                             part_of_speech := strip p;
                             example :=
                               match x with
                               | Some x' =>
                                   if truthy x' then strip x' else []
                               | None => []
                               end |}).
    { unfold DefinitionModule.get_definition.
      rewrite (proj2 (truthy_true _) Hnb); simpl.
      now rewrite words_of_setitem, Hsame, get_setitem_same. }
    split; [exact Hget|].
    unfold DefinitionModule.get_example.
    rewrite (proj2 (truthy_true _) Hnb); simpl negb; cbv iota.
    now rewrite Hget.
Qed.

(** X16.  A stored word with white space at either end is out of the
    manager's reach: no argument of [get_definition], [remove_word] or
    [add_word] has it as its normal form, and no [remove_word] takes it out
    of its bucket. *)
Theorem untrimmed_word_out_of_reach (k language : pystr) (s : state) :
  strip k <> k ->
  forall w,
    normal_form E w <> k
    /\ PyDict.get k
         (words_of language
            (dictionary (snd (remove_word E w language s))))
       = PyDict.get k (words_of language (dictionary s)).
Proof.
  intros Hk w.
  assert (Hne : normal_form E w <> k).
  { intros <-; apply Hk; unfold normal_form; apply strip_idempotent. }
  split; [exact Hne|].
  unfold remove_word; fold (normal_form E w).
  destruct (PyDict.get language (dictionary s)) as [b|] eqn:Hb;
    [|reflexivity].
  destruct (PyDict.contains (normal_form E w) b); [|reflexivity].
  simpl snd.
  match goal with
  | |- context [export_dictionary_to_csv E language ?q ?t] =>
      destruct (export_memory E language q t) as (-> & _ & _)
  end.
  match goal with
  | |- context [save_data E ?t] =>
      destruct (save_data_memory E t) as (-> & _ & _)
  end.
  simpl; rewrite words_of_setitem.
  unfold words_of; rewrite Hb.
  apply get_delitem_other; congruence.
Qed.

End DefinitionModuleFacts.

Lemma definition_module_add_word_witness :
  DefinitionModule.get_definition calm (py " APPLE")
    (snd (fst (DefinitionModule.add_word calm (py " apple") (py "A fruit")
                 (py "noun") (Some (py "An apple a day."))
                 (DefinitionModule.init calm (py "en") fresh_disk)
                 fresh_disk)))
  = Some apple.
Proof.
  apply (@definition_module_add_word calm (py " apple") (py "A fruit")
           (py "noun") (Some (py "An apple a day."))
           (DefinitionModule.init calm (py "en") fresh_disk) fresh_disk);
    try discriminate; reflexivity.
Defined.

Lemma untrimmed_word_out_of_reach_witness :
  PyDict.get (py " apple")
    (words_of (py "en")
       (dictionary (snd (remove_word calm (py " apple") (py "en")
                           with_untrimmed_word))))
  = Some apple.
Proof.
  apply (@untrimmed_word_out_of_reach calm (py " apple") (py "en")
           with_untrimmed_word).
  discriminate.
Defined.

(** ** The task manager and the interface *)

Section TaskManagerFacts.

Variable E : env.

(** X17.  The two modules a [TaskManager] builds on the same files can
    start apart: when the dictionary file is well-formed and the language
    file is not, the [DictionaryManager] holds the empty dictionary and the
    [DefinitionModule] the one of the file. *)
Theorem modules_start_apart (language export_path : pystr)
        (fs : filesystem) (d : lexicon) :
  dictionary_file fs = Some (WellFormed d) ->
  language_data_file fs = Some Malformed ->
  read_dictionary_ok E = true ->
  let s := TaskManager.init E language export_path fs in
  dictionary (TaskManager.dictionary_manager s) = []
  /\ DefinitionModule.dictionary (TaskManager.definition_module s) = d
  /\ DefinitionModule.language_data (TaskManager.definition_module s) = [].
Proof.
  intros Hd Hl Hr; cbv zeta.
  unfold TaskManager.init, init, DefinitionModule.init,
    DefinitionModule.load_dictionary, DefinitionModule.load_language_data,
    load_data, ensure_files_exist, json_load.
  simpl; rewrite Hd, Hl; simpl; rewrite Hd, Hl, Hr.
  destruct (read_language_data_ok E); simpl; rewrite ?Hd, ?Hl, ?Hr;
    repeat split; reflexivity.
Qed.

(** X18.  [TaskManager.set_language] accepts a code when its lower-cased,
    trimmed form is registered, but keeps the code as given, and
    [process_question] looks words up under that.  So when the dictionary
    has no bucket under the code as given, every question after an accepted
    [set_language] is answered with the not-found error. *)
Theorem questions_under_code_as_given (language : pystr)
        (s s' : TaskManager.state) :
  TaskManager.set_language E language s = (true, s') ->
  PyDict.get language (dictionary (TaskManager.dictionary_manager s))
  = None ->
  TaskManager.language s' = language
  /\ forall word,
       TaskManager.process_question E word s'
       = TaskManager.Error (TaskManager.word_not_found word).
Proof.
  unfold TaskManager.set_language.
  destruct (negb _); [discriminate|].
  intros H Hnone; injection H as <-; simpl.
  split; [reflexivity|].
  intros word; unfold TaskManager.process_question, get_definition; simpl.
  plain_types; now rewrite Hnone.
Qed.

(** X19.  An answer of [process_question] carries the entry that
    [get_definition] finds under the manager's language and a confidence of
    at most 100; when the fields of the entry are trimmed, as the manager
    stores them, the confidence is the one of the rule that looks at what
    is left after trimming.  An error is answered exactly when nothing is
    found. *)
Theorem process_question_outcome (word : pystr) (s : TaskManager.state) :
  match TaskManager.process_question E word s with
  | TaskManager.Error text =>
      get_definition E word (TaskManager.language s)
        (TaskManager.dictionary_manager s) = None
      /\ text = TaskManager.word_not_found word
  | TaskManager.Answer d p x confidence =>
      get_definition E word (TaskManager.language s)
        (TaskManager.dictionary_manager s)
      = Some {| definition := d; part_of_speech := p; example := x |}
      /\ PrimFloat.leb confidence 100 = true
      /\ (strip d = d -> strip x = x ->
          confidence = calculate_confidence_spec default d x)
  end.
Proof.
  unfold TaskManager.process_question.
  destruct (get_definition E word _ _) as [[d p x]|]; [|auto].
  simpl; split; [reflexivity|].
  split.
  - unfold calculate_confidence.
    assert (Hmax : PrimFloat.leb (max_confidence default)
                                 (max_confidence default) = true)
      by reflexivity.
    destruct (truthy _ && truthy _); [now apply py_min_at_most|].
    destruct (truthy _ || truthy _); [now apply py_min_at_most|reflexivity].
  - intros Hd Hx.
    unfold calculate_confidence, calculate_confidence_spec; simpl coerce.
    rewrite Hd, Hx.
    destruct (truthy d), (truthy x); reflexivity.
Qed.

(** X20.  When [TaskManager.export_dictionary] reports success, the path
    in its message is the path of the file that was written, and a row for
    every word of the language, lower-cased and trimmed, was written to it.
    When it reports failure, either nothing was written (the language has
    no bucket, or the file could not be opened) and no file has changed; or
    the file was opened and the writing broke off, and then that file, and
    no other, holds what was left of the writing: what the operating system
    kept, or the header and the rows before the first that UTF-8 does not
    encode. *)
Theorem export_dictionary_outcome (language : pystr)
        (csv_path : option pystr) (s : TaskManager.state) :
  let r := TaskManager.export_dictionary E language csv_path s in
  let dm := TaskManager.dictionary_manager s in
  let dm' := TaskManager.dictionary_manager (snd r) in
  let target := export_target csv_path dm in
  let rows :=
    map export_row (words_of (strip (lower E language)) (dictionary dm)) in
  (fst (fst r) = true ->
   snd (fst r) = TaskManager.exported_to target
   /\ PyDict.get target (csv_files (disk dm'))
      = Some (as_read (fieldnames :: rows)))
  /\ (fst (fst r) = false ->
      snd (fst r) = TaskManager.export_failed
      /\ (((PyDict.get (strip (lower E language)) (dictionary dm) = None
            \/ open_csv_for_writing_ok E target = false)
           /\ disk dm' = disk dm)
          \/ (exists remains,
                 disk dm' = write_csv target remains (disk dm)
                 /\ (csv_write_error E target = Some remains
                     \/ (forallb encodable rows = false
                         /\ remains
                            = as_read (fieldnames :: rows_written rows)))))).
Proof.
  cbv zeta; unfold TaskManager.export_dictionary, export_dictionary_to_csv.
  simpl dictionary; simpl disk.
  unfold words_of.
  destruct (PyDict.get (strip (lower E language)) _) as [b|];
    [|simpl; split; [discriminate|auto]].
  destruct (open_csv_for_writing_ok E _);
    [|simpl; split; [discriminate|auto]].
  destruct (csv_write_error E _) as [remains|].
  { simpl; split; [discriminate|].
    intros _; split; [reflexivity|].
    right; exists remains; auto. }
  destruct (forallb encodable (map export_row b)) eqn:Hcode; simpl.
  - split; [|discriminate].
    intros _; split.
    + unfold export_target; destruct csv_path as [q|]; [|reflexivity].
      destruct (truthy q); reflexivity.
    + rewrite (rows_written_all _ Hcode); apply get_setitem_same.
  - split; [discriminate|].
    intros _; split; [reflexivity|].
    right; eexists; split; [reflexivity|auto].
Qed.

(** X21.  What the interface does after an automatic add.  It opens the
    window for manual entry exactly when the word is non-empty in normal
    form, new to the language, and the fetch returned nothing; an empty
    word and a word already stored give an error box instead. *)
Theorem manual_window_opens (word language : pystr) (s : state) :
  fst (QAInterface.fetch_and_add_word E word language s)
  = QAInterface.ManualAddWindow
  <-> (normal_form E word <> []
       /\ has_word (normal_form E word) language s = false
       /\ fetch_definition_from_api E (normal_form E word) language = None).
Proof.
  unfold QAInterface.fetch_and_add_word, add_word, normal_form.
  destruct (truthy (strip (lower E word))) eqn:Hw; simpl.
  - rewrite has_word_ensure_language.
    destruct (has_word _ language s); simpl.
    + split; [discriminate|intros (_ & H & _); discriminate].
    + destruct (fetch_definition_from_api E _ _); simpl.
      * split; [discriminate|intros (_ & _ & H); discriminate].
      * apply truthy_true in Hw; split; auto.
  - apply truthy_false in Hw.
    split; [discriminate|intros (H & _); congruence].
Qed.

End TaskManagerFacts.

Lemma modules_start_apart_witness :
  dictionary
    (TaskManager.dictionary_manager
       (TaskManager.init calm (py "en") mirror language_file_malformed)) = []
  /\ DefinitionModule.dictionary
       (TaskManager.definition_module
          (TaskManager.init calm (py "en") mirror language_file_malformed))
     = [(py "en", [(py "apple", apple)])]
  /\ DefinitionModule.language_data
       (TaskManager.definition_module
          (TaskManager.init calm (py "en") mirror language_file_malformed))
     = [].
Proof.
  apply (@modules_start_apart calm (py "en") mirror language_file_malformed
           [(py "en", [(py "apple", apple)])]); reflexivity.
Defined.

Lemma questions_under_code_as_given_witness :
  TaskManager.process_question calm (py "apple")
    (snd (TaskManager.set_language calm (py " EN")
            (TaskManager.init calm (py "en") mirror (disk with_apple))))
  = TaskManager.Error (TaskManager.word_not_found (py "apple")).
Proof.
  apply (@questions_under_code_as_given calm (py " EN")
           (TaskManager.init calm (py "en") mirror (disk with_apple))
           (snd (TaskManager.set_language calm (py " EN")
                   (TaskManager.init calm (py "en") mirror
                      (disk with_apple)))));
    reflexivity.
Defined.

Lemma export_dictionary_outcome_witness :
  snd (fst (TaskManager.export_dictionary calm (py "EN ") None
              (TaskManager.init calm (py "en") mirror (disk with_apple))))
  = TaskManager.exported_to mirror.
Proof.
  apply (@export_dictionary_outcome calm (py "EN ") None
           (TaskManager.init calm (py "en") mirror (disk with_apple)));
    reflexivity.
Defined.

(** ** Reloading the languages *)

(** X23.  After [reload_language_data], the current language of the
    definition module is a registered one whenever any language is
    registered: a language that is no longer in the file is replaced by the
    first one of the file. *)
Theorem reload_language_data_registered (E : env) (fs : filesystem)
        (s : DefinitionModule.state) :
  let s' := DefinitionModule.reload_language_data E fs s in
  DefinitionModule.language_data s' <> [] ->
  PyDict.contains (DefinitionModule.language s')
    (DefinitionModule.language_data s') = true.
Proof.
  cbv zeta; unfold DefinitionModule.reload_language_data.
  set (s1 := DefinitionModule.load_language_data E fs s).
  destruct (PyDict.contains (DefinitionModule.language s1)
              (DefinitionModule.language_data s1)) eqn:Hc;
    simpl; [auto|].
  unfold DefinitionModule.load_dictionary.
  destruct (json_load _ _); simpl;
    (destruct (DefinitionModule.language_data s1) as [|[k v] rest];
     [congruence|intros _; unfold PyDict.contains; simpl;
                 now rewrite eqb_refl]).
Qed.

Lemma reload_language_data_registered_witness :
  PyDict.contains
    (DefinitionModule.language
       (DefinitionModule.reload_language_data calm fresh_disk
          (DefinitionModule.init calm (py "pt") fresh_disk)))
    (DefinitionModule.language_data
       (DefinitionModule.reload_language_data calm fresh_disk
          (DefinitionModule.init calm (py "pt") fresh_disk))) = true.
Proof.
  apply (@reload_language_data_registered calm fresh_disk
           (DefinitionModule.init calm (py "pt") fresh_disk)).
  discriminate.
Defined.

Lemma import_complete_file_witness :
  exists added skipped,
    fst (import_dictionary_from_csv calm (py "in.csv") (py "en")
           (with_csv two_rows_csv fresh))
    = (true, MsgImported added skipped)
    /\ added + skipped = 2.
Proof.
  destruct (@import_complete_file calm (py "in.csv") (py "en")
              (with_csv two_rows_csv fresh) fieldnames [flower; tree])
    as (added & skipped & Hr & Hsum & _).
  - reflexivity.
  - repeat constructor; right; simpl; lia.
  - exists added, skipped; split; [exact Hr|exact Hsum].
Defined.
